(** * The price-taker model builder of idaes/apps/grid_integration/multiperiod

    A shallow embedding of [price_taker_model.py]: the daily reshaping of a
    price series, the selection of a cluster count, the representative-day
    clustering, the loading of the price parameters, the ramping and
    startup/shutdown constraints and the cash-flow objective.

    Python integers are [Z].  Prices are rationals ([Q]): every finite double
    is one and [<] on finite doubles is [<] on the rationals they denote; a
    missing cell (NaN) of a pandas column is [None].  Rounding of float
    arithmetic is outside the model. *)

From Stdlib Require Import ZArith QArith Qpower List String Lia Lqa.
From stdpp Require Import gmap strings list fin_maps.

Local Open Scope Z_scope.

(** ** Python: exceptions, results, ranges, indexing *)

Inductive exn : Type :=
| ValueError
| TypeError
| IndexError
| KeyError
| AttributeError
| ZeroDivisionError
| UnboundLocalError.

(** What a call ends with: a value, a raised exception, or (only for the model
    of a [while] loop) the step budget running out before the loop ends. *)
Inductive outcome (A : Type) : Type :=
| Ok (a : A)
| Raise (e : exn)
| OutOfFuel.

Arguments Ok {A} a.
Arguments Raise {A} e.
Arguments OutOfFuel {A}.

Definition obind {A B : Type} (c : outcome A) (k : A -> outcome B) : outcome B :=
  match c with
  | Ok a => k a
  | Raise e => Raise e
  | OutOfFuel => OutOfFuel
  end.

Declare Scope py_scope.
Delimit Scope py_scope with py.
Notation "'let?' x ':=' c 'in' k" := (obind c (fun x => k))
  (at level 10, x pattern, c at level 100, k at level 200) : py_scope.
Local Open Scope py_scope.

Definition of_option {A : Type} (e : exn) (o : option A) : outcome A :=
  match o with
  | Some a => Ok a
  | None => Raise e
  end.

(** [range(a, b)]. *)
Definition py_range (a b : Z) : list Z :=
  map (fun i => a + Z.of_nat i) (seq 0 (Z.to_nat (b - a))).

(** Pyomo's [RangeSet(a, b)] with unit step, as the ordered list of its
    members; [RangeSet(b)] is [RangeSet(1, b)]. *)
Definition RangeSet (a b : Z) : list Z := py_range a (b + 1).

Definition py_len {A : Type} (l : list A) : Z := Z.of_nat (length l).

(** [l[i]] on a list or an array: a negative index counts from the end, an
    index out of range raises [IndexError]. *)
Definition py_index {A : Type} (l : list A) (i : Z) : outcome A :=
  let n := py_len l in
  if (i <? - n) || (n <=? i) then Raise IndexError
  else of_option IndexError (l !! Z.to_nat (if i <? 0 then i + n else i)).

(** The bounds of the slice [l[i:j]]: a negative bound counts from the end and
    both are clipped to [0 .. len(l)]. *)
Definition slice_bound (n k : Z) : Z :=
  if k <? 0 then Z.max (k + n) 0 else Z.min k n.

Definition py_slice {A : Type} (l : list A) (i j : Z) : list A :=
  let lo := slice_bound (py_len l) i in
  let hi := slice_bound (py_len l) j in
  firstn (Z.to_nat (hi - lo)) (skipn (Z.to_nat lo) l).

(** Dictionary keys: an integer or a tuple of integers. *)
Inductive pykey : Type :=
| KInt (t : Z)
| KTuple (l : list Z).

#[global] Instance pykey_eq_dec : EqDecision pykey.
Proof. solve_decision. Defined.

Definition pykey_to_sum (k : pykey) : Z + list Z :=
  match k with KInt t => inl t | KTuple l => inr l end.

Definition pykey_of_sum (s : Z + list Z) : pykey :=
  match s with inl t => KInt t | inr l => KTuple l end.

#[global] Instance pykey_countable : Countable pykey.
Proof.
  apply (inj_countable' pykey_to_sum pykey_of_sum).
  intros [t | l]; reflexivity.
Defined.

(** ** pandas: series and frames *)

Abbreviation cell := (option Q).

(** A series after [reset_index(drop=True)]: its values by position. *)
Abbreviation Series := (list (option Q)).

(** A frame whose row index is [0 .. df_nrows-1]: the ordered columns with
    their labels.  Every column of a frame built by the functions below has
    [df_nrows] cells. *)
Record DataFrame (L : Type) : Type := mkDataFrame {
  df_nrows : nat;
  df_columns : list (L * list cell)
}.

Arguments mkDataFrame {L} df_nrows df_columns.
Arguments df_nrows {L} d.
Arguments df_columns {L} d.

(** [pd.DataFrame(columns=labels)]: the labelled columns, no rows. *)
Definition df_empty {L : Type} (labels : list L) : DataFrame L :=
  mkDataFrame 0%nat (map (fun c => (c, [])) labels).

(** A series aligned on the index [0 .. n-1]: positions it lacks are NaN,
    positions beyond [n] are dropped. *)
Definition reindex (n : nat) (s : list cell) : list cell :=
  map (fun r => match s !! r with Some c => c | None => None end) (seq 0 n).

Definition has_label {L : Type} `{EqDecision L} (c : L) (cols : list (L * list cell)) : bool :=
  existsb (fun p => bool_decide (fst p = c)) cols.

(** [df[c] = s].  On a frame without rows a series that has values brings its
    index to the frame, and the columns already there are filled with NaN;
    then the series is aligned on the frame's index and replaces the column
    labelled [c], or is appended as a new last column. *)
Definition put_column {L : Type} `{EqDecision L}
    (c : L) (v : list cell) (cols : list (L * list cell)) : list (L * list cell) :=
  if has_label c cols
  then map (fun p => if bool_decide (fst p = c) then (fst p, v) else p) cols
  else cols ++ [(c, v)].

Definition df_setitem {L : Type} `{EqDecision L}
    (df : DataFrame L) (c : L) (s : Series) : DataFrame L :=
  let fresh := (df_nrows df =? 0)%nat && negb (length s =? 0)%nat in
  let n := if fresh then length s else df_nrows df in
  let cols :=
    if fresh then map (fun p => (fst p, reindex n (snd p))) (df_columns df)
    else df_columns df in
  mkDataFrame n (put_column c (reindex n s) cols).

(** [df[c]] for a column label: the first column so labelled, [KeyError]
    when there is none. *)
Definition df_getitem {L : Type} `{EqDecision L}
    (df : DataFrame L) (c : L) : outcome Series :=
  of_option KeyError
    (snd <$> find (fun p => bool_decide (fst p = c)) (df_columns df)).

(** The rows of [df.transpose()]: one per column of [df]. *)
Definition df_transpose_rows {L : Type} (df : DataFrame L) : list (list cell) :=
  map snd (df_columns df).

(** What [cluster_lmp_data] is handed as [raw_data]. *)
Inductive pandas_obj : Type :=
| PSeries (s : Series)
| PDataFrame (df : DataFrame string).

(** ** Pyomo: expressions, relations, components, blocks *)

Inductive expr : Type :=
| Num (q : Q)
| Leaf (name : string)
| Add (a b : expr)
| Sub (a b : expr)
| Mul (a b : expr)
| Div (a b : expr).

Inductive relation : Type :=
| RelLe (a b : expr)
| RelGe (a b : expr)
| RelEq (a b : expr).

(** The value of an expression when its leaves (variables and parameters of
    the flowsheet) have the values [rho]. *)
Fixpoint eval (rho : string -> Q) (e : expr) : Q :=
  match e with
  | Num q => q
  | Leaf x => rho x
  | Add a b => eval rho a + eval rho b
  | Sub a b => eval rho a - eval rho b
  | Mul a b => eval rho a * eval rho b
  | Div a b => eval rho a / eval rho b
  end%Q.

Definition holds (rho : string -> Q) (r : relation) : Prop :=
  match r with
  | RelLe a b => (eval rho a <= eval rho b)%Q
  | RelGe a b => (eval rho b <= eval rho a)%Q
  | RelEq a b => (eval rho a == eval rho b)%Q
  end.

Inductive domain : Type := Reals | NonNegativeReals.
Inductive sense : Type := minimize | maximize.

Inductive component : Type :=
| CVar (within : domain)
| CConstraint (r : relation)
| CExpression (e : expr)
| CObjective (e : expr) (s : sense).

(** [blk.name = c] for a component: one of that name is replaced where it
    stands, a new name is declared last. *)
Fixpoint set_component (name : string) (c : component)
    (decls : list (string * component)) : list (string * component) :=
  match decls with
  | [] => [(name, c)]
  | (n, c') :: rest =>
      if String.eqb n name then (n, c) :: rest
      else (n, c') :: set_component name c rest
  end.

Definition is_objective (d : string * component) : bool :=
  match snd d with CObjective _ _ => true | _ => false end.

(** The quantities an operation model and a design model expose. *)
Record OperationModelData : Type := mkOperation {
  blk_op_mode : expr;
  blk_startup : expr;
  blk_non_fuel_vom : expr;
  blk_fuel_cost : expr;
  blk_elec_revenue : expr;
  blk_carbon_price : expr
}.

Record DesignModelData : Type := mkDesign {
  blk_capex : expr;
  blk_fom : expr
}.

(** A block met by [component_data_objects(Block)]. *)
Inductive SubBlock : Type :=
| OperationBlock (b : OperationModelData)
| DesignBlock (b : DesignModelData)
| OtherBlock.

(** One period of the multi-period model: the blocks of its flowsheet in
    traversal order, the power variable the flowsheet declares, and the
    expressions the builder attaches ([None]: not attached). *)
Record PeriodBlock : Type := mkPeriod {
  period_blocks : list SubBlock;
  opt_power : option expr;
  op_mode : option expr;
  startup : option expr;
  non_fuel_vom : option expr;
  fuel_cost : option expr;
  elec_revenue : option expr;
  carbon_price : option expr;
  net_cash_inflow : option expr
}.

(** The multi-period model: its periods in order, by key, and the indexed
    constraints attached to it. *)
Record MultiPeriodModel : Type := mkMultiPeriod {
  period : list (pykey * PeriodBlock);
  ramp_up_con : option (list (Z * relation));
  ramp_down_con : option (list (Z * relation));
  startup_con1 : option (list (Z * relation));
  stutdown_con1 : option (list (Z * relation))
}.

(** [period[k]]. *)
Definition period_getitem (ps : list (pykey * PeriodBlock)) (k : pykey) : outcome PeriodBlock :=
  of_option KeyError (snd <$> find (fun p => bool_decide (fst p = k)) ps).

(** ** The collaborators

    The clustering library, the knee detector, numpy's global generator and
    Python's [int] are not part of the repository; the builder is modelled
    over any implementation of them. *)

Record KMeansFit : Type := mkKMeansFit {
  cluster_centers_ : list (list Q);
  labels_ : list Z;
  inertia_ : Q
}.

Class Collaborators : Type := {
  (** the state of numpy's global random generator *)
  rng : Type;
  (** [np.random.seed(s)]: the state it leaves *)
  np_random_seed : Z -> outcome rng;
  (** [KMeans(n_clusters=k).fit(samples)], drawing from the global generator *)
  KMeans_fit : Z -> list (list cell) -> rng -> outcome KMeansFit * rng;
  (** [KneeLocator(ks, inertias, curve="convex", direction="decreasing").knee] *)
  KneeLocator_knee : list Z -> list Q -> outcome (option Z);
  (** [int(label)] for a column label *)
  py_int : string -> outcome Z
}.

(** ** The model object *)

Inductive warning : Type :=
| KmaxNotSet
| CloseToKmax (kmax : Z).

(** The attributes of a [PriceTakerModel]; [None] is an attribute not set
    yet, and [Some None] is one set to Python's [None].  [blocks] are the
    blocks the flowsheet attached, in the order [component_data_objects]
    visits them; [components] are the variables, constraints, expressions and
    objectives declared on the model itself, in declaration order. *)

Record PriceTakerModel : Type := mkPriceTakerModel {
  _seed : Z;
  _horizon_length : Z;
  set_years : option (option (list Z));
  set_days : option (option (list Z));
  _n_time_points : option Z;
  set_time : option (list Z);
  LMP : option (gmap pykey cell);
  WEIGHTS : option (gmap pykey Q);
  mp_model : option MultiPeriodModel;
  ramp_up_down_range : option (list Z);
  range_time_periods_SU : option (list Z);
  range_time_periods_SD : option (list Z);
  blocks : list SubBlock;
  components : list (string * component)
}.

(** [self.attr = v] for each attribute the builder assigns. *)

Definition with_set_years (v : option (option (list Z))) (self : PriceTakerModel) : PriceTakerModel :=
  {| _seed := _seed self;
     _horizon_length := _horizon_length self;
     set_years := v;
     set_days := set_days self;
     _n_time_points := _n_time_points self;
     set_time := set_time self;
     LMP := LMP self;
     WEIGHTS := WEIGHTS self;
     mp_model := mp_model self;
     ramp_up_down_range := ramp_up_down_range self;
     range_time_periods_SU := range_time_periods_SU self;
     range_time_periods_SD := range_time_periods_SD self;
     blocks := blocks self;
     components := components self |}.

Definition with_set_days (v : option (option (list Z))) (self : PriceTakerModel) : PriceTakerModel :=
  {| _seed := _seed self;
     _horizon_length := _horizon_length self;
     set_years := set_years self;
     set_days := v;
     _n_time_points := _n_time_points self;
     set_time := set_time self;
     LMP := LMP self;
     WEIGHTS := WEIGHTS self;
     mp_model := mp_model self;
     ramp_up_down_range := ramp_up_down_range self;
     range_time_periods_SU := range_time_periods_SU self;
     range_time_periods_SD := range_time_periods_SD self;
     blocks := blocks self;
     components := components self |}.

Definition with_n_time_points (v : option Z) (self : PriceTakerModel) : PriceTakerModel :=
  {| _seed := _seed self;
     _horizon_length := _horizon_length self;
     set_years := set_years self;
     set_days := set_days self;
     _n_time_points := v;
     set_time := set_time self;
     LMP := LMP self;
     WEIGHTS := WEIGHTS self;
     mp_model := mp_model self;
     ramp_up_down_range := ramp_up_down_range self;
     range_time_periods_SU := range_time_periods_SU self;
     range_time_periods_SD := range_time_periods_SD self;
     blocks := blocks self;
     components := components self |}.

Definition with_set_time (v : option (list Z)) (self : PriceTakerModel) : PriceTakerModel :=
  {| _seed := _seed self;
     _horizon_length := _horizon_length self;
     set_years := set_years self;
     set_days := set_days self;
     _n_time_points := _n_time_points self;
     set_time := v;
     LMP := LMP self;
     WEIGHTS := WEIGHTS self;
     mp_model := mp_model self;
     ramp_up_down_range := ramp_up_down_range self;
     range_time_periods_SU := range_time_periods_SU self;
     range_time_periods_SD := range_time_periods_SD self;
     blocks := blocks self;
     components := components self |}.

Definition with_LMP (v : option (gmap pykey cell)) (self : PriceTakerModel) : PriceTakerModel :=
  {| _seed := _seed self;
     _horizon_length := _horizon_length self;
     set_years := set_years self;
     set_days := set_days self;
     _n_time_points := _n_time_points self;
     set_time := set_time self;
     LMP := v;
     WEIGHTS := WEIGHTS self;
     mp_model := mp_model self;
     ramp_up_down_range := ramp_up_down_range self;
     range_time_periods_SU := range_time_periods_SU self;
     range_time_periods_SD := range_time_periods_SD self;
     blocks := blocks self;
     components := components self |}.

Definition with_WEIGHTS (v : option (gmap pykey Q)) (self : PriceTakerModel) : PriceTakerModel :=
  {| _seed := _seed self;
     _horizon_length := _horizon_length self;
     set_years := set_years self;
     set_days := set_days self;
     _n_time_points := _n_time_points self;
     set_time := set_time self;
     LMP := LMP self;
     WEIGHTS := v;
     mp_model := mp_model self;
     ramp_up_down_range := ramp_up_down_range self;
     range_time_periods_SU := range_time_periods_SU self;
     range_time_periods_SD := range_time_periods_SD self;
     blocks := blocks self;
     components := components self |}.

Definition with_mp_model (v : option MultiPeriodModel) (self : PriceTakerModel) : PriceTakerModel :=
  {| _seed := _seed self;
     _horizon_length := _horizon_length self;
     set_years := set_years self;
     set_days := set_days self;
     _n_time_points := _n_time_points self;
     set_time := set_time self;
     LMP := LMP self;
     WEIGHTS := WEIGHTS self;
     mp_model := v;
     ramp_up_down_range := ramp_up_down_range self;
     range_time_periods_SU := range_time_periods_SU self;
     range_time_periods_SD := range_time_periods_SD self;
     blocks := blocks self;
     components := components self |}.

Definition with_ramp_up_down_range (v : option (list Z)) (self : PriceTakerModel) : PriceTakerModel :=
  {| _seed := _seed self;
     _horizon_length := _horizon_length self;
     set_years := set_years self;
     set_days := set_days self;
     _n_time_points := _n_time_points self;
     set_time := set_time self;
     LMP := LMP self;
     WEIGHTS := WEIGHTS self;
     mp_model := mp_model self;
     ramp_up_down_range := v;
     range_time_periods_SU := range_time_periods_SU self;
     range_time_periods_SD := range_time_periods_SD self;
     blocks := blocks self;
     components := components self |}.

Definition with_range_time_periods_SU (v : option (list Z)) (self : PriceTakerModel) : PriceTakerModel :=
  {| _seed := _seed self;
     _horizon_length := _horizon_length self;
     set_years := set_years self;
     set_days := set_days self;
     _n_time_points := _n_time_points self;
     set_time := set_time self;
     LMP := LMP self;
     WEIGHTS := WEIGHTS self;
     mp_model := mp_model self;
     ramp_up_down_range := ramp_up_down_range self;
     range_time_periods_SU := v;
     range_time_periods_SD := range_time_periods_SD self;
     blocks := blocks self;
     components := components self |}.

Definition with_range_time_periods_SD (v : option (list Z)) (self : PriceTakerModel) : PriceTakerModel :=
  {| _seed := _seed self;
     _horizon_length := _horizon_length self;
     set_years := set_years self;
     set_days := set_days self;
     _n_time_points := _n_time_points self;
     set_time := set_time self;
     LMP := LMP self;
     WEIGHTS := WEIGHTS self;
     mp_model := mp_model self;
     ramp_up_down_range := ramp_up_down_range self;
     range_time_periods_SU := range_time_periods_SU self;
     range_time_periods_SD := v;
     blocks := blocks self;
     components := components self |}.

Definition with_components (v : list (string * component)) (self : PriceTakerModel) : PriceTakerModel :=
  {| _seed := _seed self;
     _horizon_length := _horizon_length self;
     set_years := set_years self;
     set_days := set_days self;
     _n_time_points := _n_time_points self;
     set_time := set_time self;
     LMP := LMP self;
     WEIGHTS := WEIGHTS self;
     mp_model := mp_model self;
     ramp_up_down_range := ramp_up_down_range self;
     range_time_periods_SU := range_time_periods_SU self;
     range_time_periods_SD := range_time_periods_SD self;
     blocks := blocks self;
     components := v |}.

Definition with_horizon_length (v : Z) (self : PriceTakerModel) : PriceTakerModel :=
  {| _seed := _seed self;
     _horizon_length := v;
     set_years := set_years self;
     set_days := set_days self;
     _n_time_points := _n_time_points self;
     set_time := set_time self;
     LMP := LMP self;
     WEIGHTS := WEIGHTS self;
     mp_model := mp_model self;
     ramp_up_down_range := ramp_up_down_range self;
     range_time_periods_SU := range_time_periods_SU self;
     range_time_periods_SD := range_time_periods_SD self;
     blocks := blocks self;
     components := components self |}.

Definition with_seed (v : Z) (self : PriceTakerModel) : PriceTakerModel :=
  {| _seed := v;
     _horizon_length := _horizon_length self;
     set_years := set_years self;
     set_days := set_days self;
     _n_time_points := _n_time_points self;
     set_time := set_time self;
     LMP := LMP self;
     WEIGHTS := WEIGHTS self;
     mp_model := mp_model self;
     ramp_up_down_range := ramp_up_down_range self;
     range_time_periods_SU := range_time_periods_SU self;
     range_time_periods_SD := range_time_periods_SD self;
     blocks := blocks self;
     components := components self |}.

(** ** Construction and properties *)

(** [PriceTakerModel(seed=20, horizon_length=24)]; an argument left out is
    [None]. *)
Definition __init__ (seed horizon_length : option Z) : outcome PriceTakerModel :=
  Ok {| _seed := default 20 seed;
        _horizon_length := default 24 horizon_length;
        set_years := None;
        set_days := None;
        _n_time_points := None;
        set_time := None;
        LMP := None;
        WEIGHTS := None;
        mp_model := None;
        ramp_up_down_range := None;
        range_time_periods_SU := None;
        range_time_periods_SD := None;
        blocks := [];
        components := [] |}.

Definition seed (self : PriceTakerModel) : Z := _seed self.

Definition seed_setter (value : Z) (self : PriceTakerModel) : outcome PriceTakerModel :=
  Ok (with_seed value self).

Definition horizon_length (self : PriceTakerModel) : Z := _horizon_length self.

(** [self.horizon_length = value]. *)
Definition horizon_length_setter (value : Z) (self : PriceTakerModel) : outcome PriceTakerModel :=
  if value <=? 0 then Raise ValueError
  else Ok (with_horizon_length value self).

(** ** Daily reshaping *)

(** The [while] loop of [generate_daily_data], one iteration per unit of
    [fuel]. *)
Fixpoint generate_daily_data_loop (fuel : nat) (h : Z) (raw_data : Series)
    (i j day : Z) (daily_data : DataFrame Z) : outcome (DataFrame Z) :=
  match fuel with
  | O => OutOfFuel
  | S fuel' =>
      if j <=? py_len raw_data then
        generate_daily_data_loop fuel' h raw_data j (j + h) (day + 1)
          (df_setitem daily_data day (py_slice raw_data i j))
      else Ok daily_data
  end.

Definition generate_daily_data (fuel : nat) (self : PriceTakerModel)
    (raw_data : Series) (day_list : list Z) : outcome (DataFrame Z) :=
  generate_daily_data_loop fuel (_horizon_length self) raw_data
    0 (_horizon_length self) 1 (df_empty day_list).

(** [reconfigure_raw_data]: a series has no [columns]; [//] by zero raises;
    the loop over [scenarios[0:1]] leaves [daily_data] unbound when there is
    no third column. *)
Definition reconfigure_raw_data (fuel : nat) (self : PriceTakerModel)
    (raw_data : pandas_obj) : outcome (DataFrame Z * list string) :=
  match raw_data with
  | PSeries _ => Raise AttributeError
  | PDataFrame df =>
      let column_head := map fst (df_columns df) in
      let scenarios := skipn 2 column_head in
      if _horizon_length self =? 0 then Raise ZeroDivisionError
      else
        let day_list :=
          py_range 1 (Z.of_nat (df_nrows df) / _horizon_length self + 1) in
        match firstn 1 scenarios with
        | [] => Raise UnboundLocalError
        | i :: _ =>
            let? column := df_getitem df i in
            let? daily_data := generate_daily_data fuel self column day_list in
            Ok (daily_data, scenarios)
        end
  end.

(** ** State and exceptions

    A method that mutates its object or draws random numbers is a function of
    the state before it; an exception leaves the mutations made so far. *)

Definition M (S A : Type) : Type := S -> outcome A * S.

Definition ret {S A : Type} (a : A) : M S A := fun s => (Ok a, s).

Definition bind {S A B : Type} (c : M S A) (k : A -> M S B) : M S B :=
  fun s =>
    match c s with
    | (Ok a, s') => k a s'
    | (Raise e, s') => (Raise e, s')
    | (OutOfFuel, s') => (OutOfFuel, s')
    end.

Definition lift {S A : Type} (c : outcome A) : M S A := fun s => (c, s).

Definition gets {S A : Type} (f : S -> A) : M S A := fun s => (Ok (f s), s).

Definition modify {S : Type} (f : S -> S) : M S unit := fun s => (Ok tt, f s).

Notation "'let!' x ':=' c 'in' k" := (bind c (fun x => k))
  (at level 10, x pattern, c at level 100, k at level 200) : py_scope.
Notation "c ';;' k" := (bind c (fun _ => k))
  (at level 100, k at level 200, right associativity) : py_scope.

(** [for x in l: body(x)]. *)
Fixpoint for_each {S A : Type} (l : list A) (body : A -> M S unit) : M S unit :=
  match l with
  | [] => ret tt
  | x :: rest => body x ;; for_each rest body
  end.

(** A loop that threads a local value and may raise. *)
Fixpoint ofold {A B : Type} (body : B -> A -> outcome B) (l : list A) (acc : B) : outcome B :=
  match l with
  | [] => Ok acc
  | x :: rest => let? acc' := body acc x in ofold body rest acc'
  end.

(** [[f(x) for x in l]]. *)
Fixpoint omap {A B : Type} (f : A -> outcome B) (l : list A) : outcome (list B) :=
  match l with
  | [] => Ok []
  | x :: rest => let? y := f x in let? ys := omap f rest in Ok (y :: ys)
  end.

(** The double nearest to the literal [1e-4]. *)
Definition noise_threshold : Q := 7378697629483821 # 73786976294838206464.

Definition Qltb (x y : Q) : bool := negb (Qle_bool y x).

(** [{i: v for i, v in zip(range(first, ...), values)}]. *)
Definition enumerate_from {A : Type} (first : Z) (values : list A) : gmap Z A :=
  list_to_map (zip (py_range first (first + py_len values)) values).

(** The column selector of [append_lmp_data]. *)
Inductive column_arg : Type :=
| ColumnName (c : string)
| ColumnList (cs : list string).

(** [d[k]] on a dictionary. *)
Definition dict_getitem {K V : Type} `{Countable K} (d : gmap K V) (k : K) : outcome V :=
  of_option KeyError (d !! k).

(** ** Representative days: the pure steps of [cluster_lmp_data] *)

(** The body of the clamp loop at cluster [d] and hour [t]. *)
Definition clamp_step (centroids : list (list Q)) (d t : Z) : outcome (list (list Q)) :=
  let? row := py_index centroids d in
  let? x := py_index row t in
  if Qltb x noise_threshold
  then Ok (<[Z.to_nat d := <[Z.to_nat t := 0%Q]> row]> centroids)
  else Ok centroids.

(** [for d in range(n_clusters): for t in range(24): ...]. *)
Definition clamp_centroids (n_clusters : Z) (centroids : list (list Q)) : outcome (list (list Q)) :=
  ofold (fun c d => ofold (fun c' t => clamp_step c' d t) (py_range 0 24) c)
    (py_range 0 n_clusters) centroids.

(** [np.zeros(n)]. *)
Definition np_zeros (n : Z) : outcome (list Q) :=
  if n <? 0 then Raise ValueError else Ok (repeat 0%Q (Z.to_nat n)).

(** The body of the counting loop at sample [j] and cluster [k]. *)
Definition count_step (labels : list Z) (weights_counter : list Q) (j k : Z) : outcome (list Q) :=
  let? l := py_index labels j in
  if l =? k then
    let? w := py_index weights_counter k in
    Ok (<[Z.to_nat k := (w + 1)%Q]> weights_counter)
  else Ok weights_counter.

(** [for j in range(0, len(labels)): for k in n_clusters_list: ...]. *)
Definition count_labels (n_clusters : Z) (labels : list Z) (weights_counter : list Q) : outcome (list Q) :=
  ofold (fun wc j => ofold (fun wc' k => count_step labels wc' j k) (py_range 0 n_clusters) wc)
    (py_range 0 (py_len labels)) weights_counter.

(** [pd.DataFrame(centroids.transpose(), columns=range(1, n_clusters+1)).to_dict()]:
    the column labels must be as many as the centroids; each day maps the row
    index, from 0, to the centroid's value. *)
Definition rep_days_dict (n_clusters : Z) (centroids : list (list Q)) : outcome (gmap Z (gmap Z Q)) :=
  if py_len centroids =? n_clusters
  then Ok (enumerate_from 1 (map (enumerate_from 0) centroids))
  else Raise ValueError.

(** [weights_data.to_dict()] after the index is set to [1 .. len]: the one
    column, labelled 0. *)
Definition weights_dict (weights_counter : list Q) : gmap Z (gmap Z Q) :=
  {[ 0 := enumerate_from 1 weights_counter ]}.

Section DataMethods.
Context `{Collaborators}.

(** The model object together with what is global to the process: numpy's
    generator and the warnings logged. *)
Record world : Type := mkWorld {
  model : PriceTakerModel;
  np_random : rng;
  log : list warning
}.

Definition on_model (f : PriceTakerModel -> PriceTakerModel) (w : world) : world :=
  mkWorld (f (model w)) (np_random w) (log w).

Definition setattr (f : PriceTakerModel -> PriceTakerModel) : M world unit :=
  modify (on_model f).

Definition warn (x : warning) : M world unit :=
  modify (fun w => mkWorld (model w) (np_random w) (log w ++ [x])).

(** A call of a method that only reads the model. *)
Definition call {A : Type} (method : PriceTakerModel -> outcome A) : M world A :=
  fun w => (method (model w), w).

Definition seed_generator (s : Z) : M world unit :=
  fun w =>
    match np_random_seed s with
    | Ok g => (Ok tt, mkWorld (model w) g (log w))
    | Raise e => (Raise e, w)
    | OutOfFuel => (OutOfFuel, w)
    end.

Definition fit (k : Z) (samples : list (list cell)) : M world KMeansFit :=
  fun w =>
    let (r, g) := KMeans_fit k samples (np_random w) in
    (r, mkWorld (model w) g (log w)).

(** ** Cluster-count selection *)

Fixpoint inertia_sweep (k_values : list Z) (samples : list (list cell))
    (inertia_values : list Q) : M world (list Q) :=
  match k_values with
  | [] => ret inertia_values
  | k :: rest =>
      let! kmeans := fit k samples in
      inertia_sweep rest samples (inertia_values ++ [inertia_ kmeans])
  end.

(** [get_optimal_n_clusters]; the plot is not modelled.  [n_clusters + 2]
    raises [TypeError] when the knee is [None]. *)
Definition get_optimal_n_clusters (daily_data : DataFrame Z)
    (kmin kmax : option Z) : M world (option Z * list Q) :=
  let kmin := default 4 kmin in
  let! kmax :=
    match kmax with
    | None => warn KmaxNotSet ;; ret 30
    | Some k => ret k
    end in
  let k_values := py_range kmin kmax in
  let! s := gets (fun w => _seed (model w)) in
  seed_generator s ;;
  let! inertia_values := inertia_sweep k_values (df_transpose_rows daily_data) [] in
  let! n_clusters := lift (KneeLocator_knee k_values inertia_values) in
  let! close :=
    lift match n_clusters with
         | None => Raise TypeError
         | Some n => Ok (kmax <=? n + 2)
         end in
  (if close : bool then warn (CloseToKmax kmax) else ret tt) ;;
  ret (n_clusters, inertia_values).

(** ** Representative-day clustering *)

Definition cluster_lmp_data (fuel : nat) (raw_data : pandas_obj)
    (n_clusters : Z) (scenarios : option Z)
    : M world (gmap Z (gmap Z Q) * gmap Z (gmap Z Q)) :=
  let! reconfigured := call (fun self => reconfigure_raw_data fuel self raw_data) in
  let daily_data := fst reconfigured in
  let! kmeans := fit n_clusters (df_transpose_rows daily_data) in
  let labels := labels_ kmeans in
  let! centroids := lift (clamp_centroids n_clusters (cluster_centers_ kmeans)) in
  let! zeros := lift (np_zeros n_clusters) in
  let! weights_counter := lift (count_labels n_clusters labels zeros) in
  let! lmp_data := lift (rep_days_dict n_clusters centroids) in
  ret (lmp_data, weights_dict weights_counter).

(** ** Price-parameter loading *)

(** [self.LMP[k] = v] and [self.WEIGHTS[k] = v]. *)
Definition LMP_setitem (k : pykey) (v : cell) : M world unit :=
  let! d := gets (fun w => LMP (model w)) in
  let! d := lift (of_option AttributeError d) in
  setattr (with_LMP (Some (<[k := v]> d))).

Definition WEIGHTS_setitem (k : pykey) (v : Q) : M world unit :=
  let! d := gets (fun w => WEIGHTS (model w)) in
  let! d := lift (of_option AttributeError d) in
  setattr (with_WEIGHTS (Some (<[k := v]> d))).

(** The body of the loops of the two representative-day branches, at day
    [d] and hour [t]; [key_t] and [key_d] build the keys. *)
Definition populate_cell (lmp_data weights : gmap Z (gmap Z Q))
    (key_t : Z -> Z -> pykey) (key_d : Z -> pykey) (d t : Z) : M world unit :=
  let! profile := lift (dict_getitem lmp_data d) in
  let! price := lift (dict_getitem profile t) in
  LMP_setitem (key_t t d) (Some price) ;;
  let! column := lift (dict_getitem weights 0) in
  let! weight := lift (dict_getitem column d) in
  WEIGHTS_setitem (key_d d) weight.

(** [for t in self.set_time: ...] at day [d]. *)
Definition populate_day (lmp_data weights : gmap Z (gmap Z Q))
    (key_t : Z -> Z -> pykey) (key_d : Z -> pykey) (d : Z) : M world unit :=
  let! times := gets (fun w => set_time (model w)) in
  let! times := lift (of_option AttributeError times) in
  for_each times (populate_cell lmp_data weights key_t key_d d).

(** [for d in self.set_days: for t in self.set_time: ...]. *)
Definition populate (lmp_data weights : gmap Z (gmap Z Q))
    (key_t : Z -> Z -> pykey) (key_d : Z -> pykey) : M world unit :=
  let! days := gets (fun w => set_days (model w)) in
  let! days := lift (of_option AttributeError days) in
  let! days := lift (of_option TypeError days) in
  for_each days (populate_day lmp_data weights key_t key_d).

(** [append_lmp_data] once the sheet is read: [full_data] is the frame
    [pd.read_excel] returned. *)
Definition append_lmp_data (fuel : nat) (full_data : DataFrame string)
    (column_name : column_arg) (n_clusters : option Z)
    (horizon_length : option Z) : M world unit :=
  match column_name, n_clusters with
  | ColumnList years, Some n =>
      (* Multiple years and representative days *)
      let! ys := lift (omap py_int years) in
      setattr (with_set_years (Some (Some ys))) ;;
      setattr (with_set_days (Some (Some (RangeSet 1 n)))) ;;
      let n_time_points := default 24 horizon_length in
      setattr (with_n_time_points (Some n_time_points)) ;;
      setattr (with_set_time (Some (RangeSet 1 n_time_points))) ;;
      setattr (with_LMP (Some ∅)) ;;
      setattr (with_WEIGHTS (Some ∅)) ;;
      for_each years (fun year =>
        let! price_data := lift (df_getitem full_data year) in
        let! clustered :=
          cluster_lmp_data fuel (PSeries price_data) n horizon_length in
        let! y := lift (py_int year) in
        populate (fst clustered) (snd clustered)
          (fun t d => KTuple [t; d; y]) (fun d => KTuple [d; y]))
  | ColumnList years, None =>
      (* Multiple years, use fullyear price signal for each year *)
      let! ys := lift (omap py_int years) in
      setattr (with_set_years (Some (Some ys))) ;;
      setattr (with_set_days (Some None)) ;;
      let n_time_points := Z.of_nat (df_nrows full_data) in
      setattr (with_n_time_points (Some n_time_points)) ;;
      setattr (with_set_time (Some (RangeSet 1 n_time_points))) ;;
      setattr (with_LMP (Some ∅)) ;;
      for_each years (fun year =>
        let! price_data := lift (df_getitem full_data year) in
        let! y := lift (py_int year) in
        let! times := gets (fun w => set_time (model w)) in
        let! times := lift (of_option AttributeError times) in
        for_each times (fun t =>
          let! price :=
            lift (of_option KeyError
                    (if t - 1 <? 0 then None else price_data !! Z.to_nat (t - 1))) in
          LMP_setitem (KTuple [t; y]) price))
  | ColumnName _, Some n =>
      (* Single price signal, use reprentative days *)
      setattr (with_set_years (Some None)) ;;
      setattr (with_set_days (Some (Some (RangeSet 1 n)))) ;;
      let n_time_points := default 24 horizon_length in
      setattr (with_n_time_points (Some n_time_points)) ;;
      setattr (with_set_time (Some (RangeSet 1 (n_time_points - 1)))) ;;
      setattr (with_LMP (Some ∅)) ;;
      setattr (with_WEIGHTS (Some ∅)) ;;
      let! clustered :=
        cluster_lmp_data fuel (PDataFrame full_data) n horizon_length in
      populate (fst clustered) (snd clustered)
        (fun t d => KTuple [t; d]) (fun d => KInt d)
  | ColumnName c, None =>
      (* Single price signal, use full year's price signal *)
      setattr (with_set_years (Some None)) ;;
      setattr (with_set_days (Some None)) ;;
      let n_time_points := Z.of_nat (df_nrows full_data) in
      setattr (with_n_time_points (Some n_time_points)) ;;
      let times := RangeSet 1 n_time_points in
      setattr (with_set_time (Some times)) ;;
      let! price_data := lift (df_getitem full_data c) in
      let! prices := lift (omap (fun t => py_index price_data (t - 1)) times) in
      setattr (with_LMP (Some (list_to_map (zip (map KInt times) prices))))
  end.

End DataMethods.

(** ** Period aggregation: ramping and startup/shutdown *)

(** [acc = 0; for blk in ...: if isinstance(blk, OperationModelData): acc += blk.f]. *)
Definition sum_operation (f : OperationModelData -> expr) (blks : list SubBlock) : expr :=
  fold_left
    (fun acc blk => match blk with OperationBlock b => Add acc (f b) | _ => acc end)
    blks (Num 0).

Definition sum_design (f : DesignModelData -> expr) (blks : list SubBlock) : expr :=
  fold_left
    (fun acc blk => match blk with DesignBlock b => Add acc (f b) | _ => acc end)
    blks (Num 0).

(** Python's [sum] of a generator of expressions. *)
Definition py_sum (es : list expr) : expr := fold_left Add es (Num 0).

(** [period[p].op_mode = Expression(expr=op_mode)] and the same for
    [startup], from the operation blocks of the period. *)
Definition attach_modes (blk : PeriodBlock) : PeriodBlock :=
  {| period_blocks := period_blocks blk;
     opt_power := opt_power blk;
     op_mode := Some (sum_operation blk_op_mode (period_blocks blk));
     startup := Some (sum_operation blk_startup (period_blocks blk));
     non_fuel_vom := non_fuel_vom blk;
     fuel_cost := fuel_cost blk;
     elec_revenue := elec_revenue blk;
     carbon_price := carbon_price blk;
     net_cash_inflow := net_cash_inflow blk |}.

(** The loop [for p in period] that both builders run: every period gets
    its two expressions; the keys are collected in order. *)
Definition aggregate_modes (ps : list (pykey * PeriodBlock)) : list (pykey * PeriodBlock) :=
  map (fun kb => (fst kb, attach_modes (snd kb))) ps.

Definition with_period (ps : list (pykey * PeriodBlock)) (mp : MultiPeriodModel) : MultiPeriodModel :=
  {| period := ps;
     ramp_up_con := ramp_up_con mp;
     ramp_down_con := ramp_down_con mp;
     startup_con1 := startup_con1 mp;
     stutdown_con1 := stutdown_con1 mp |}.

Definition with_ramp_up_con (c : list (Z * relation)) (mp : MultiPeriodModel) : MultiPeriodModel :=
  {| period := period mp;
     ramp_up_con := Some c;
     ramp_down_con := ramp_down_con mp;
     startup_con1 := startup_con1 mp;
     stutdown_con1 := stutdown_con1 mp |}.

Definition with_ramp_down_con (c : list (Z * relation)) (mp : MultiPeriodModel) : MultiPeriodModel :=
  {| period := period mp;
     ramp_up_con := ramp_up_con mp;
     ramp_down_con := Some c;
     startup_con1 := startup_con1 mp;
     stutdown_con1 := stutdown_con1 mp |}.

Definition with_startup_con1 (c : list (Z * relation)) (mp : MultiPeriodModel) : MultiPeriodModel :=
  {| period := period mp;
     ramp_up_con := ramp_up_con mp;
     ramp_down_con := ramp_down_con mp;
     startup_con1 := Some c;
     stutdown_con1 := stutdown_con1 mp |}.

Definition with_stutdown_con1 (c : list (Z * relation)) (mp : MultiPeriodModel) : MultiPeriodModel :=
  {| period := period mp;
     ramp_up_con := ramp_up_con mp;
     ramp_down_con := ramp_down_con mp;
     startup_con1 := startup_con1 mp;
     stutdown_con1 := Some c |}.

(** [self.mp_model], and an assignment to one of its attributes. *)
Definition get_mp_model : M PriceTakerModel MultiPeriodModel :=
  let! mp := gets mp_model in lift (of_option AttributeError mp).

Definition set_mp_model (f : MultiPeriodModel -> MultiPeriodModel) : M PriceTakerModel unit :=
  let! mp := get_mp_model in modify (with_mp_model (Some (f mp))).

(** [period[range_time_periods[t]]]. *)
Definition period_at (ps : list (pykey * PeriodBlock)) (range_time_periods : list pykey)
    (t : Z) : outcome PeriodBlock :=
  let? p := py_index range_time_periods t in period_getitem ps p.

(** An attribute of a period block that may not be there. *)
Definition attr {A : Type} (a : option A) : outcome A := of_option AttributeError a.

(** [Constraint(index_set, rule=rule)]: the rule is called at every index. *)
Definition indexed_constraint (index_set : list Z) (rule : Z -> outcome relation)
    : outcome (list (Z * relation)) :=
  omap (fun t => let? r := rule t in Ok (t, r)) index_set.

Definition ramp_up_con_rule (ps : list (pykey * PeriodBlock)) (range_time_periods : list pykey)
    (startup_limit ramp_up_limit minimum_opt_limit : Q) (t : Z) : outcome relation :=
  let? now := period_at ps range_time_periods t in
  let? power := attr (opt_power now) in
  let? before := period_at ps range_time_periods (t - 1) in
  let? power' := attr (opt_power before) in
  let? su := attr (startup now) in
  let? su' := attr (startup before) in
  let? om := attr (op_mode now) in
  let? om' := attr (op_mode before) in
  Ok (RelLe (Sub power power')
        (Add (Add (Sub (Mul (Num startup_limit) su) (Mul (Num minimum_opt_limit) su'))
                  (Mul (Num ramp_up_limit) om))
             (Mul (Num minimum_opt_limit) (Sub om om')))).

Definition ramp_down_con_rule (ps : list (pykey * PeriodBlock)) (range_time_periods : list pykey)
    (shutdown_limit ramp_down_limit minimum_opt_limit : Q) (t : Z) : outcome relation :=
  let? before := period_at ps range_time_periods (t - 1) in
  let? power' := attr (opt_power before) in
  let? now := period_at ps range_time_periods t in
  let? power := attr (opt_power now) in
  let? su' := attr (startup before) in
  let? om' := attr (op_mode before) in
  let? om := attr (op_mode now) in
  let? su := attr (startup now) in
  Ok (RelLe (Sub power' power)
        (Add (Sub (Mul (Num shutdown_limit) (Sub (Add su' om') om))
                  (Mul (Num minimum_opt_limit) su))
             (Mul (Num ramp_down_limit) om))).

(** [add_ramping_constraints]: the expressions are attached, and the period
    keys collected, only when [period[1,1]] has no [op_mode]. *)
Definition add_ramping_constraints
    (startup_limit shutdown_limit ramp_up_limit ramp_down_limit minimum_opt_limit : Q)
    : M PriceTakerModel unit :=
  let! mp := get_mp_model in
  modify (with_ramp_up_down_range (Some (RangeSet 2 (py_len (period mp) - 1)))) ;;
  let! first := lift (period_getitem (period mp) (KTuple [1; 1])) in
  let! range_time_periods :=
    match op_mode first with
    | None =>
        set_mp_model (with_period (aggregate_modes (period mp))) ;;
        ret (map fst (period mp))
    | Some _ => ret []
    end in
  let! mp := get_mp_model in
  let! index_set := gets ramp_up_down_range in
  let! index_set := lift (attr index_set) in
  let! up :=
    lift (indexed_constraint index_set
            (ramp_up_con_rule (period mp) range_time_periods
               startup_limit ramp_up_limit minimum_opt_limit)) in
  set_mp_model (with_ramp_up_con up) ;;
  let! down :=
    lift (indexed_constraint index_set
            (ramp_down_con_rule (period mp) range_time_periods
               shutdown_limit ramp_down_limit minimum_opt_limit)) in
  set_mp_model (with_ramp_down_con down).

Definition startup_con1_rule (ps : list (pykey * PeriodBlock)) (range_time_periods : list pykey)
    (UT t : Z) : outcome relation :=
  let? terms :=
    omap (fun i => let? blk := period_at ps range_time_periods i in attr (startup blk))
      (py_range (t - UT + 1) t) in
  let? now := period_at ps range_time_periods t in
  let? om := attr (op_mode now) in
  Ok (RelLe (py_sum terms) om).

Definition stutdown_con1_rule (ps : list (pykey * PeriodBlock)) (range_time_periods : list pykey)
    (DT t : Z) : outcome relation :=
  let? terms :=
    omap (fun i => let? blk := period_at ps range_time_periods i in attr (startup blk))
      (py_range (t - DT) (t + 1)) in
  let? back := period_at ps range_time_periods (t - DT) in
  let? om := attr (op_mode back) in
  Ok (RelLe (py_sum terms) (Sub (Num 1) om)).

(** [add_startup_shutdown]: the expressions are attached on every call. *)
Definition add_startup_shutdown (UT DT : Z) : M PriceTakerModel unit :=
  let! mp := get_mp_model in
  modify (with_range_time_periods_SU (Some (RangeSet UT (py_len (period mp) - 1)))) ;;
  modify (with_range_time_periods_SD (Some (RangeSet DT (py_len (period mp) - 1)))) ;;
  set_mp_model (with_period (aggregate_modes (period mp))) ;;
  let range_time_periods := map fst (period mp) in
  let! mp := get_mp_model in
  let! index_SU := gets range_time_periods_SU in
  let! index_SU := lift (attr index_SU) in
  let! su :=
    lift (indexed_constraint index_SU
            (startup_con1_rule (period mp) range_time_periods UT)) in
  set_mp_model (with_startup_con1 su) ;;
  let! index_SD := gets range_time_periods_SD in
  let! index_SD := lift (attr index_SD) in
  let! sd :=
    lift (indexed_constraint index_SD
            (stutdown_con1_rule (period mp) range_time_periods DT)) in
  set_mp_model (with_stutdown_con1 sd).

(** ** Cash flows *)

Definition attach_hourly_cashflows (blk : PeriodBlock) : PeriodBlock :=
  let vom := sum_operation blk_non_fuel_vom (period_blocks blk) in
  let fuel := sum_operation blk_fuel_cost (period_blocks blk) in
  let revenue := sum_operation blk_elec_revenue (period_blocks blk) in
  let carbon := sum_operation blk_carbon_price (period_blocks blk) in
  {| period_blocks := period_blocks blk;
     opt_power := opt_power blk;
     op_mode := op_mode blk;
     startup := startup blk;
     non_fuel_vom := Some vom;
     fuel_cost := Some fuel;
     elec_revenue := Some revenue;
     carbon_price := Some carbon;
     net_cash_inflow := Some (Sub (Sub (Sub revenue vom) fuel) carbon) |}.

Definition build_hourly_cashflows : M PriceTakerModel unit :=
  let! mp := get_mp_model in
  set_mp_model
    (with_period (map (fun kb => (fst kb, attach_hourly_cashflows (snd kb))) (period mp))).

(** [self.name = c]. *)
Definition declare (name : string) (c : component) : M PriceTakerModel unit :=
  modify (fun self => with_components (set_component name c (components self)) self).

(** The blocks [self.component_data_objects(Block)] visits: those declared on
    the model, then those of the periods of the multi-period model. *)
Definition component_data_objects (self : PriceTakerModel) : list SubBlock :=
  blocks self ++
  match mp_model self with
  | Some mp => flat_map (fun kb => period_blocks (snd kb)) (period mp)
  | None => []
  end.

(** [a / b] and [a ** (-n)] on numbers. *)
Definition py_div (a b : Q) : outcome Q :=
  if Qeq_bool b 0 then Raise ZeroDivisionError else Ok (a / b)%Q.

Definition py_pow_neg (a : Q) (n : Z) : outcome Q :=
  if Qeq_bool a 0 && (0 <? n) then Raise ZeroDivisionError else Ok (Qpower a (- n)).

(** [(1 - (1 + discount_rate) ** (-lifetime)) / discount_rate]. *)
Definition constant_cf_factor (lifetime : Z) (discount_rate : Q) : outcome Q :=
  let? p := py_pow_neg (1 + discount_rate)%Q lifetime in
  py_div (1 - p)%Q discount_rate.

(** [build_cashflows]; dividing an expression by the number zero raises, as
    dividing numbers does. *)
Definition build_cashflows (lifetime : Z)
    (discount_rate corp_tax other_costs other_revenue : Q) (objective : string)
    : M PriceTakerModel unit :=
  let! blks := gets component_data_objects in
  let capex_expr := sum_design blk_capex blks in
  let fom_expr := sum_design blk_fom blks in
  declare "CAPEX" (CVar NonNegativeReals) ;;
  declare "capex_calculation" (CConstraint (RelEq (Leaf "CAPEX") capex_expr)) ;;
  declare "FOM" (CVar NonNegativeReals) ;;
  declare "fom_calculation" (CConstraint (RelEq (Leaf "FOM") fom_expr)) ;;
  declare "DEPRECIATION" (CVar NonNegativeReals) ;;
  (if lifetime =? 0 then lift (Raise ZeroDivisionError) else ret tt) ;;
  declare "dep_calculation"
    (CConstraint (RelEq (Leaf "DEPRECIATION")
                    (Div (Leaf "CAPEX") (Num (inject_Z lifetime))))) ;;
  declare "NET_CASH_INFLOW" (CVar Reals) ;;
  let! mp := get_mp_model in
  let! inflows :=
    lift (omap (fun p => let? blk := period_getitem (period mp) p in
                         attr (net_cash_inflow blk))
            (map fst (period mp))) in
  declare "net_cash_inflow_calculation"
    (CConstraint (RelEq (Leaf "NET_CASH_INFLOW") (py_sum inflows))) ;;
  declare "CORP_TAX" (CVar NonNegativeReals) ;;
  declare "corp_tax_calculation"
    (CConstraint
       (RelGe (Leaf "CORP_TAX")
          (Mul (Num corp_tax)
             (Sub (Sub (Sub (Add (Leaf "NET_CASH_INFLOW") (Num other_revenue))
                            (Num other_costs))
                       (Leaf "FOM"))
                  (Leaf "DEPRECIATION"))))) ;;
  declare "NET_PROFIT" (CVar Reals) ;;
  declare "net_profit_calculation"
    (CConstraint
       (RelEq (Leaf "NET_PROFIT")
          (Sub (Sub (Sub (Add (Leaf "NET_CASH_INFLOW") (Num other_revenue))
                         (Num other_costs))
                    (Leaf "FOM"))
               (Leaf "CORP_TAX")))) ;;
  let! factor := lift (constant_cf_factor lifetime discount_rate) in
  declare "NPV"
    (CExpression (Sub (Mul (Num factor) (Leaf "NET_PROFIT")) (Leaf "CAPEX"))) ;;
  let! inverse := lift (py_div 1 factor) in
  declare "Annualized_NPV"
    (CExpression (Sub (Leaf "NET_PROFIT") (Mul (Num inverse) (Leaf "CAPEX")))) ;;
  if String.eqb objective "NPV" then
    declare "obj"
      (CObjective (Sub (Mul (Num factor) (Leaf "NET_PROFIT")) (Leaf "CAPEX")) maximize)
  else if String.eqb objective "Annualized NPV" then
    declare "obj"
      (CObjective (Sub (Leaf "NET_PROFIT") (Mul (Num inverse) (Leaf "CAPEX"))) maximize)
  else if String.eqb objective "Net Profit" then
    declare "obj" (CObjective (Leaf "NET_PROFIT") maximize)
  else ret tt.

(** ** Stand-ins for the collaborators

    To run the builder on concrete data: a generator whose state is a counter,
    a clustering that numbers the clusters from an offset it draws from the
    generator (sample [j] gets label [(j + g) mod k]; a centre is the first
    sample with its label), a knee detector that finds no knee in fewer than
    three points, and [int] on unsigned decimal labels. *)

Definition standin_seed (s : Z) : outcome Z :=
  if s <? 0 then Raise ValueError else Ok s.

Definition standin_fit (k : Z) (samples : list (list cell)) (g : Z) : outcome KMeansFit * Z :=
  match omap (omap (of_option ValueError)) samples with
  | Ok rows =>
      if (k <=? 0) || (py_len rows <? k) then (Raise ValueError, g)
      else
        let labels := map (fun j => (j + g) mod k) (py_range 0 (py_len rows)) in
        let centres :=
          map (fun c => default [] (rows !! Z.to_nat ((c - g) mod k))) (py_range 0 k) in
        (Ok (mkKMeansFit centres labels 0), g + 1)
  | Raise e => (Raise e, g)
  | OutOfFuel => (OutOfFuel, g)
  end.

Definition standin_knee (k_values : list Z) (inertia_values : list Q) : outcome (option Z) :=
  match k_values with
  | _ :: k :: _ :: _ => Ok (Some k)
  | _ => Ok None
  end.

Definition digit_of (c : Ascii.ascii) : option Z :=
  let n := Z.of_nat (Ascii.nat_of_ascii c) in
  if (48 <=? n) && (n <=? 57) then Some (n - 48) else None.

Fixpoint decimal (s : string) (acc : Z) : outcome Z :=
  match s with
  | EmptyString => Ok acc
  | String c rest =>
      match digit_of c with
      | Some d => decimal rest (10 * acc + d)
      | None => Raise ValueError
      end
  end.

Definition standin_int (s : string) : outcome Z :=
  match s with
  | EmptyString => Raise ValueError
  | _ => decimal s 0
  end.

Definition standin : Collaborators :=
  {| rng := Z;
     np_random_seed := standin_seed;
     KMeans_fit := standin_fit;
     KneeLocator_knee := standin_knee;
     py_int := standin_int |}.

(** ** Sample data *)

(** A sheet of two days of 24 hourly prices, 10 on the first day and 20 on the
    second, in the third column and again under the label of a year. *)
Definition two_days : Series :=
  repeat (Some (10 # 1)) 24 ++ repeat (Some (20 # 1)) 24.

Definition two_day_sheet : DataFrame string :=
  mkDataFrame 48
    [("time", repeat None 48); ("scenario", repeat None 48);
     ("price", two_days); ("2022", two_days)].

(** The daily table of [two_days]. *)
Definition two_day_table : DataFrame Z :=
  mkDataFrame 24 [(1, repeat (Some (10 # 1)) 24); (2, repeat (Some (20 # 1)) 24)].

(** Five hourly prices, 1 to 5. *)
Definition five_prices : Series := map (fun z => Some (inject_Z z)) [1; 2; 3; 4; 5].

(** A freshly constructed model, whatever the arguments. *)
Definition fresh (seed horizon_length : Z) : PriceTakerModel :=
  {| _seed := seed;
     _horizon_length := horizon_length;
     set_years := None;
     set_days := None;
     _n_time_points := None;
     set_time := None;
     LMP := None;
     WEIGHTS := None;
     mp_model := None;
     ramp_up_down_range := None;
     range_time_periods_SU := None;
     range_time_periods_SD := None;
     blocks := [];
     components := [] |}.

(** A plant of four periods keyed [(t, 1)]: each has one operation block and
    a power variable, all named after the hour. *)
Definition plant_block (t : string) : OperationModelData :=
  {| blk_op_mode := Leaf ("op_mode" ++ t);
     blk_startup := Leaf ("startup" ++ t);
     blk_non_fuel_vom := Leaf ("vom" ++ t);
     blk_fuel_cost := Leaf ("fuel" ++ t);
     blk_elec_revenue := Leaf ("revenue" ++ t);
     blk_carbon_price := Leaf ("carbon" ++ t) |}.

Definition plant_period (t : string) : PeriodBlock :=
  {| period_blocks := [OperationBlock (plant_block t)];
     opt_power := Some (Leaf ("power" ++ t));
     op_mode := None;
     startup := None;
     non_fuel_vom := None;
     fuel_cost := None;
     elec_revenue := None;
     carbon_price := None;
     net_cash_inflow := None |}.

Definition plant_periods : list (pykey * PeriodBlock) :=
  [(KTuple [1; 1], plant_period "1"); (KTuple [2; 1], plant_period "2");
   (KTuple [3; 1], plant_period "3"); (KTuple [4; 1], plant_period "4")].

Definition plant : PriceTakerModel :=
  with_mp_model
    (Some {| period := plant_periods;
             ramp_up_con := None;
             ramp_down_con := None;
             startup_con1 := None;
             stutdown_con1 := None |})
    (fresh 20 24).

(** One centroid of 24 hours with a negative price, one below the noise
    threshold and 22 prices of 5. *)
Definition noisy_centroid : list Q :=
  [(-1 # 1); (1 # 100000)]%Q ++ repeat (5 # 1)%Q 22.






(** The plant once its hourly cash flows are built. *)
Definition plant_with_cashflows : PriceTakerModel := snd (build_hourly_cashflows plant).

(** A world of the stand-ins: the model, the generator's counter, no warning
    logged yet. *)
Definition standin_world (self : PriceTakerModel) (g : Z) : @world standin :=
  @mkWorld standin self g [].

(** The loader called twice in a row with the same sheet and arguments on
    the same model (seed 20, horizon 24): the second call starts where the
    first left the generator. *)
Definition first_load : outcome unit * @world standin :=
  append_lmp_data 10 two_day_sheet (ColumnName "price") (Some 2) None
    (standin_world (fresh 20 24) 0).

Definition second_load : outcome unit * @world standin :=
  append_lmp_data 10 two_day_sheet (ColumnName "price") (Some 2) None (snd first_load).

(** ** Notions the properties are stated with *)

(** The [d]-th window of [h] samples of a series, days counted from 1. *)
Definition day_window (h : Z) (raw_data : Series) (d : Z) : list cell :=
  firstn (Z.to_nat h) (skipn (Z.to_nat ((d - 1) * h)) raw_data).

(** An entry after the noise clamp, and a centroid profile after the clamp
    loop went through its hours [0 .. k-1]. *)
Definition clamp_value (x : Q) : Q := if Qltb x noise_threshold then 0%Q else x.

Definition clamp_upto (k : nat) (row : list Q) : list Q :=
  imap (fun t x => if (t <? k)%nat then clamp_value x else x) row.

(** How many of the labels are [k], for each cluster [k] of [0 .. n-1], and
    the sum of a list of integers. *)
Definition tally (n_clusters : Z) (labels : list Z) : list Z :=
  map (fun k => Z.of_nat (count_occ Z.eq_dec labels k)) (py_range 0 n_clusters).

Definition sumZ (l : list Z) : Z := fold_right Z.add 0 l.

(** [weights_counter[k] += 1] where there is a [k]-th counter. *)
Definition bump (k : nat) (weights_counter : list Q) : list Q :=
  match weights_counter !! k with
  | Some w => <[k := (w + 1)%Q]> weights_counter
  | None => weights_counter
  end.

(** A property of the state that a computation keeps, whatever it ends
    with. *)
Definition preserves {S A : Type} (P : S -> Prop) (c : M S A) : Prop :=
  forall s, P s -> P (snd (c s)).



(** Two worlds hold the same loaded data: the horizon, the index sets and
    the price and weight tables are equal, and (when [generator] is set) so
    is the state of the random generator.  The seeds, the warnings logged
    and the Pyomo components are left free. *)
Definition same_data `{Collaborators} (generator : bool) (w1 w2 : world) : Prop :=
  _horizon_length (model w1) = _horizon_length (model w2) /\
  set_years (model w1) = set_years (model w2) /\
  set_days (model w1) = set_days (model w2) /\
  _n_time_points (model w1) = _n_time_points (model w2) /\
  set_time (model w1) = set_time (model w2) /\
  LMP (model w1) = LMP (model w2) /\
  WEIGHTS (model w1) = WEIGHTS (model w2) /\
  (generator = true -> np_random w1 = np_random w2).

(** A computation that, run in two such worlds, ends the same way in two such
    worlds. *)
Definition respects `{Collaborators} (generator : bool) {A : Type} (c : M world A) : Prop :=
  forall w1 w2,
    same_data generator w1 w2 ->
    fst (c w1) = fst (c w2) /\ same_data generator (snd (c w1)) (snd (c w2)).

(** The objectives declared on a model. *)
Definition objectives (decls : list (string * component)) : list (string * component) :=
  List.filter is_objective decls.

(** The columns after [df[d] = content(d)] for each [d] of [ds] in turn. *)
Definition put_all {L : Type} `{EqDecision L} (content : L -> list (option Q))
    (ds : list L) (cols : list (L * list (option Q))) : list (L * list (option Q)) :=
  fold_left (fun acc d => put_column d (content d) acc) ds cols.


(** The sum of a list of numbers. *)
Definition sumQ (l : list Q) : Q := fold_right Qplus 0%Q l.

(** The operation blocks among the blocks of a period. *)
Definition operation_blocks (blks : list SubBlock) : list OperationModelData :=
  flat_map (fun blk => match blk with OperationBlock b => [b] | _ => [] end) blks.

(** The hourly margin of an operation block under a valuation. *)
Definition block_margin (rho : string -> Q) (b : OperationModelData) : Q :=
  (eval rho (blk_elec_revenue b) - eval rho (blk_non_fuel_vom b)
   - eval rho (blk_fuel_cost b) - eval rho (blk_carbon_price b))%Q.

(** * Properties *)

(** ** Ranges, slices, loops *)

Lemma py_range_length a b : length (py_range a b) = Z.to_nat (b - a).
Proof. unfold py_range. now rewrite length_map, length_seq. Qed.

Lemma py_range_nil a b : b <= a -> py_range a b = [].
Proof.
  intros Hle. unfold py_range.
  replace (Z.to_nat (b - a)) with 0%nat by lia. reflexivity.
Qed.

Lemma py_range_cons a b : a < b -> py_range a b = a :: py_range (a + 1) b.
Proof.
  intros Hlt. unfold py_range.
  replace (Z.to_nat (b - a)) with (S (Z.to_nat (b - (a + 1)))) by lia.
  cbn [seq map]. f_equal; [lia |].
  rewrite <- seq_shift, map_map. apply map_ext. intros i. lia.
Qed.

Lemma in_py_range x a b : In x (py_range a b) <-> a <= x < b.
Proof.
  unfold py_range. rewrite in_map_iff. split.
  - intros (i & <- & Hi). apply in_seq in Hi. lia.
  - intros Hx. exists (Z.to_nat (x - a)). split; [lia |]. apply in_seq. lia.
Qed.

Lemma py_range_snoc a b : a <= b -> py_range a (b + 1) = py_range a b ++ [b].
Proof.
  intros Hle. unfold py_range.
  replace (Z.to_nat (b + 1 - a)) with (Z.to_nat (b - a) + 1)%nat by lia.
  rewrite seq_app, map_app. cbn [seq map]. do 2 f_equal. lia.
Qed.

Lemma NoDup_py_range a b : NoDup (py_range a b).
Proof.
  assert (Hinj : Inj eq eq (fun i : nat => a + Z.of_nat i))
    by (intros i j Hij; lia).
  unfold py_range. apply (NoDup_fmap_2 _), NoDup_seq.
Qed.

Lemma py_slice_inside {A : Type} (l : list A) i j :
  0 <= i <= j -> j <= py_len l ->
  py_slice l i j = firstn (Z.to_nat (j - i)) (skipn (Z.to_nat i) l).
Proof.
  intros Hij Hj. unfold py_slice, slice_bound.
  destruct (Z.ltb_spec i 0); [lia |]. destruct (Z.ltb_spec j 0); [lia |].
  rewrite !Z.min_l by lia. reflexivity.
Qed.

(** ** Frames *)

Lemma reindex_full (s : list cell) : reindex (length s) s = s.
Proof.
  unfold reindex. apply list_eq. intros i.
  rewrite list_lookup_fmap.
  destruct (decide (i < length s)%nat) as [Hi | Hi].
  - rewrite lookup_seq_lt by lia. cbn.
    destruct (lookup_lt_is_Some_2 s i Hi) as [c Hc]. now rewrite Hc.
  - rewrite lookup_seq_ge by lia. cbn. symmetry. apply lookup_ge_None. lia.
Qed.

Lemma reindex_nil n : reindex n [] = repeat None n.
Proof.
  unfold reindex. rewrite <- (length_seq n 0) at 2.
  generalize (seq 0 n). intros l. induction l as [| r l IH]; cbn; [easy |].
  now rewrite IH.
Qed.

Section Columns.
Context {L : Type} `{EqDecision L}.
Implicit Types (c d : L) (v col : list cell) (cols : list (L * list cell)).

Lemma has_label_spec c cols :
  has_label c cols = true <-> exists col, In (c, col) cols.
Proof.
  unfold has_label. rewrite existsb_exists. split.
  - intros ([c' col] & Hin & Hc). apply bool_decide_eq_true in Hc.
    cbn in Hc. subst c'. now exists col.
  - intros (col & Hin). exists (c, col). split; [easy |].
    now apply bool_decide_eq_true.
Qed.

(** After [put_column d v] the columns labelled [d] hold [v], there is at
    least one, and the others are as before. *)
Lemma in_put_column c col d v cols :
  In (c, col) (put_column d v cols) <->
  (c <> d /\ In (c, col) cols) \/ (c = d /\ col = v).
Proof.
  unfold put_column. destruct (has_label d cols) eqn:Hd.
  - rewrite in_map_iff. split.
    + intros ([c' col'] & Heq & Hin). cbn in Heq. case_bool_decide.
      * inversion Heq; subst. now right.
      * inversion Heq; subst. left. easy.
    + intros [[Hne Hin] | [-> ->]].
      * exists (c, col). cbn. case_bool_decide; [congruence | easy].
      * apply has_label_spec in Hd as [col' Hin]. exists (d, col'). cbn.
        case_bool_decide; [easy | congruence].
  - rewrite in_app_iff. cbn. split.
    + intros [Hin | [Heq | []]].
      * left. split; [| easy]. intros ->.
        assert (has_label d cols = true) by (apply has_label_spec; eauto).
        congruence.
      * inversion Heq; subst. now right.
    + intros [[_ Hin] | [-> ->]]; auto.
Qed.

(** Replacing the column [d] of a list that has none leaves it. *)
Lemma replace_absent d v cols :
  (forall col, ~ In (d, col) cols) ->
  map (fun p => if bool_decide (fst p = d) then (fst p, v) else p) cols = cols.
Proof.
  intros Habs. induction cols as [| [c col] cols IH]; cbn; [easy |].
  case_bool_decide as Hc.
  - cbn in Hc. subst c. exfalso. apply (Habs col). now left.
  - f_equal. apply IH. intros col' Hin. apply (Habs col'). now right.
Qed.

Variable content : L -> list cell.

Lemma in_put_all ds : forall cols c col,
  In (c, col) (put_all content ds cols) <->
  (~ In c ds /\ In (c, col) cols) \/ (In c ds /\ col = content c).
Proof.
  induction ds as [| d ds IH]; intros cols c col; cbn.
  - tauto.
  - unfold put_all in IH. rewrite IH, in_put_column.
    assert (Hdec : In c ds \/ ~ In c ds).
    { rewrite <- list_elem_of_In. destruct (decide (c ∈ ds)); auto. }
    destruct Hdec as [Hin | Hnin];
      destruct (decide (c = d)) as [Heq | Hne];
      intuition (subst; try congruence; tauto).
Qed.

(** Filling blank columns in the order they stand gives them in that
    order. *)
Lemma put_all_blank (blank : list cell) : forall ds done,
  NoDup (done ++ ds) ->
  put_all content ds
    (map (fun d => (d, content d)) done ++ map (fun d => (d, blank)) ds)
  = map (fun d => (d, content d)) (done ++ ds).
Proof.
  induction ds as [| d ds IH]; intros done Hnd; cbn.
  - now rewrite !app_nil_r.
  - apply NoDup_app in Hnd as (Hdone & Hdisj & Hds).
    apply NoDup_cons in Hds as [Hd Hds].
    assert (Hnotdone : ~ In d done).
    { intros Hin. apply (Hdisj d); [now apply list_elem_of_In | left]. }
    unfold put_column.
    replace (has_label d _) with true.
    2:{ symmetry. apply has_label_spec. exists blank.
        apply in_app_iff. right. now left. }
    rewrite map_app. cbn. case_bool_decide; [| congruence].
    rewrite !replace_absent.
    + replace (done ++ d :: ds) with ((done ++ [d]) ++ ds)
        by now rewrite <- app_assoc.
      rewrite <- IH.
      * now rewrite map_app, <- app_assoc.
      * rewrite <- app_assoc. cbn. apply NoDup_app. repeat split; try easy.
        now apply NoDup_cons.
    + intros col Hin. apply in_map_iff in Hin as (d' & Heq & Hin).
      inversion Heq; subst. apply Hd. now apply list_elem_of_In.
    + intros col Hin. apply in_map_iff in Hin as (d' & Heq & Hin).
      inversion Heq; subst. easy.
Qed.
End Columns.

(** ** C1: the daily reshaper *)

Lemma floor_div_bound q h len : 0 < h -> q * h <= len <-> q <= len / h.
Proof.
  intros Hh. split; intros Hq.
  - apply Z.div_le_lower_bound; lia.
  - pose proof (Z.mul_div_le len h Hh). nia.
Qed.

Lemma length_day_window h raw_data d :
  0 < h -> 1 <= d <= py_len raw_data / h ->
  length (day_window h raw_data d) = Z.to_nat h.
Proof.
  intros Hh Hd. unfold day_window.
  assert (d * h <= py_len raw_data) by (apply floor_div_bound; lia).
  unfold py_len in *. rewrite length_firstn, length_skipn. nia.
Qed.

Lemma day_window_lookup h raw_data d k :
  0 < h -> 1 <= d -> 0 <= k < h ->
  day_window h raw_data d !! Z.to_nat k = raw_data !! Z.to_nat ((d - 1) * h + k).
Proof.
  intros Hh Hd Hk. unfold day_window.
  rewrite lookup_take_lt by lia. rewrite lookup_drop. f_equal. nia.
Qed.

Lemma slice_is_day_window h raw_data m :
  0 < h -> 0 <= m -> (m + 1) * h <= py_len raw_data ->
  py_slice raw_data (m * h) ((m + 1) * h) = day_window h raw_data (m + 1).
Proof.
  intros Hh Hm Hle. rewrite py_slice_inside by nia. unfold day_window.
  f_equal; [f_equal; lia |]. f_equal. f_equal. lia.
Qed.

(** The loop entered for day [m+1] with [k] whole days left runs [k] times
    and stops. *)
Lemma generate_daily_data_loop_runs h raw_data : 0 < h ->
  forall (k fuel : nat) m daily_data,
    0 <= m -> m + Z.of_nat k = py_len raw_data / h -> (k < fuel)%nat ->
    generate_daily_data_loop fuel h raw_data (m * h) ((m + 1) * h) (m + 1) daily_data
    = Ok (fold_left (fun df d => df_setitem df d (day_window h raw_data d))
            (py_range (m + 1) (py_len raw_data / h + 1)) daily_data).
Proof.
  intros Hh. induction k as [| k IH]; intros fuel m daily_data Hm Hk Hfuel;
    (destruct fuel as [| fuel]; [lia |]); cbn [generate_daily_data_loop].
  - destruct (Z.leb_spec ((m + 1) * h) (py_len raw_data)) as [Hle | Hgt].
    + apply floor_div_bound in Hle; lia.
    + now rewrite py_range_nil by lia.
  - destruct (Z.leb_spec ((m + 1) * h) (py_len raw_data)) as [Hle | Hgt].
    + rewrite slice_is_day_window by lia.
      replace ((m + 1) * h + h) with ((m + 1 + 1) * h) by lia.
      rewrite IH by lia. rewrite (py_range_cons (m + 1)) by lia. reflexivity.
    + assert (~ (m + 1) * h <= py_len raw_data) as Hn by lia.
      rewrite floor_div_bound in Hn by lia. lia.
Qed.

(** Once the frame has its [n] rows, assigning series of [n] values only
    changes the columns. *)
Lemma fold_setitem_rows (content : Z -> list cell) n : (0 < n)%nat ->
  forall ds cols,
    (forall d, In d ds -> length (content d) = n) ->
    fold_left (fun df d => df_setitem df d (content d)) ds (mkDataFrame n cols)
    = mkDataFrame n (put_all content ds cols).
Proof.
  intros Hn. induction ds as [| d ds IH]; intros cols Hlen; cbn; [easy |].
  unfold df_setitem at 2. cbn [df_nrows df_columns].
  replace (n =? 0)%nat with false by (symmetry; apply Nat.eqb_neq; lia).
  cbn [andb]. rewrite <- (Hlen d) at 2 by now left.
  rewrite reindex_full, IH; [easy |]. intros d' Hd'. apply Hlen. now right.
Qed.

Lemma fold_setitem_empty (content : Z -> list cell) n day_list : (0 < n)%nat ->
  forall ds, ds <> [] ->
    (forall d, In d ds -> length (content d) = n) ->
    fold_left (fun df d => df_setitem df d (content d)) ds (df_empty day_list)
    = mkDataFrame n (put_all content ds (map (fun c => (c, repeat None n)) day_list)).
Proof.
  intros Hn [| d ds] Hne Hlen; [easy |]. cbn [fold_left].
  assert (Hd : length (content d) = n) by (apply Hlen; now left).
  unfold df_setitem at 2. cbn [df_nrows df_columns df_empty].
  rewrite Hd. replace (n =? 0)%nat with false by (symmetry; apply Nat.eqb_neq; lia).
  cbn [Nat.eqb andb negb]. rewrite map_map. cbn [fst snd].
  rewrite <- Hd at 2. rewrite reindex_full.
  rewrite fold_setitem_rows; [| easy | intros d' Hd'; apply Hlen; now right].
  f_equal. unfold put_all. cbn [fold_left]. do 2 f_equal.
  apply map_ext. intros c. now rewrite reindex_nil.
Qed.

(** C1.  With a positive horizon [h] the daily reshaper ends (enough fuel
    for [len/h] iterations gives the frame) and its columns are these: every
    day [d] of [1 .. len/h] labels a column holding the [d]-th window, which has
    [h] values, the samples [(d-1)*h .. d*h-1] in their order; a label of
    [day_list] outside that range keeps a column without a single price; and
    for the [day_list] that [reconfigure_raw_data] passes the columns are
    exactly the days [1 .. len/h] in order, the last partial window dropped. *)
Theorem generate_daily_data_day_columns
    (self : PriceTakerModel) (raw_data : Series) (day_list : list Z) (fuel : nat) :
  0 < _horizon_length self ->
  (Z.to_nat (py_len raw_data / _horizon_length self) < fuel)%nat ->
  exists daily_data,
    generate_daily_data fuel self raw_data day_list = Ok daily_data /\
    (forall d col,
       In (d, col) (df_columns daily_data) <->
       (1 <= d <= py_len raw_data / _horizon_length self /\
        col = day_window (_horizon_length self) raw_data d) \/
       (~ 1 <= d <= py_len raw_data / _horizon_length self /\
        In d day_list /\ col = repeat None (df_nrows daily_data))) /\
    (forall d, 1 <= d <= py_len raw_data / _horizon_length self ->
       length (day_window (_horizon_length self) raw_data d)
       = Z.to_nat (_horizon_length self) /\
       forall k, 0 <= k < _horizon_length self ->
         day_window (_horizon_length self) raw_data d !! Z.to_nat k
         = raw_data !! Z.to_nat ((d - 1) * _horizon_length self + k)) /\
    (day_list = py_range 1 (py_len raw_data / _horizon_length self + 1) ->
       df_columns daily_data
       = map (fun d => (d, day_window (_horizon_length self) raw_data d))
           (py_range 1 (py_len raw_data / _horizon_length self + 1)) /\
       length (df_columns daily_data)
       = Z.to_nat (py_len raw_data / _horizon_length self)).
Proof.
  set (h := _horizon_length self). set (n := py_len raw_data / h).
  intros Hh Hfuel.
  assert (Hn : 0 <= n).
  { apply Z.div_pos; [unfold py_len |]; lia. }
  unfold generate_daily_data. fold h.
  pose proof (generate_daily_data_loop_runs h raw_data Hh (Z.to_nat n) fuel 0
                (df_empty day_list)) as Hrun.
  replace (0 * h) with 0 in Hrun by lia.
  replace ((0 + 1) * h) with h in Hrun by lia.
  change (0 + 1) with 1 in Hrun. rewrite Hrun by (fold n; lia). clear Hrun. fold n.
  eexists. split; [reflexivity |].
  assert (Hwin : forall d, 1 <= d <= n ->
            length (day_window h raw_data d) = Z.to_nat h /\
            forall k, 0 <= k < h ->
              day_window h raw_data d !! Z.to_nat k
              = raw_data !! Z.to_nat ((d - 1) * h + k)).
  { intros d Hd. split; [now apply length_day_window |].
    intros k Hk. apply day_window_lookup; lia. }
  destruct (Z.eq_dec n 0) as [Hz | Hnz].
  - (* no whole day: the empty frame *)
    rewrite !(py_range_nil 1 (n + 1)) by lia.
    cbn [fold_left df_empty df_columns df_nrows repeat].
    split; [| split; [exact Hwin |]].
    + intros d col. split.
      * intros Hin. right. apply in_map_iff in Hin as (c & Heq & Hc).
        inversion Heq; subst. repeat split; [lia | easy].
      * intros [[Hd _] | (_ & Hd & ->)]; [lia |].
        apply in_map_iff. now exists d.
    + intros ->. rewrite Hz. split; reflexivity.
  - rewrite (fold_setitem_empty _ (Z.to_nat h)); try lia.
    2:{ intros Hnil. apply (f_equal (@length Z)) in Hnil.
        rewrite py_range_length in Hnil. cbn in Hnil. lia. }
    2:{ intros d Hd. apply in_py_range in Hd. apply length_day_window; lia. }
    cbn [df_columns df_nrows].
    split; [| split; [exact Hwin |]].
    + intros d col. rewrite in_put_all, in_py_range, in_map_iff. split.
      * intros [[Hout (c & Heq & Hc)] | [Hd ->]].
        -- inversion Heq; subst. right. repeat split; [lia | easy].
        -- left. split; [lia | easy].
      * intros [[Hd ->] | (Hout & Hd & ->)].
        -- right. split; [lia | easy].
        -- left. split; [lia |]. now exists d.
    + intros ->.
      rewrite (put_all_blank (fun d => day_window h raw_data d)
                 (repeat None (Z.to_nat h)) (py_range 1 (n + 1)) [])
        by apply NoDup_py_range.
      cbn [app]. split; [reflexivity |].
      rewrite length_map, py_range_length. lia.
Qed.

Lemma generate_daily_data_day_columns_witness :
  exists daily_data,
    generate_daily_data 3 (fresh 20 2) five_prices [1; 2] = Ok daily_data /\
    df_columns daily_data
    = [(1, [Some (inject_Z 1); Some (inject_Z 2)]);
       (2, [Some (inject_Z 3); Some (inject_Z 4)])].
Proof.
  destruct (generate_daily_data_day_columns (fresh 20 2) five_prices [1; 2] 3)
    as (daily_data & Hrun & _ & _ & Hcols).
  - reflexivity.
  - vm_compute. lia.
  - exists daily_data. split; [exact Hrun |].
    destruct Hcols as [Hcols _]; [reflexivity | exact Hcols].
Defined.

(** ** C3: the constructor and the horizon *)

(** With a zero horizon the reshaping loop never ends: whatever the budget,
    it runs out. *)
Lemma zero_horizon_loop_never_ends raw_data :
  forall fuel i day daily_data,
    generate_daily_data_loop fuel 0 raw_data i 0 day daily_data = OutOfFuel.
Proof.
  induction fuel as [| fuel IH]; intros i day daily_data; cbn; [easy |].
  destruct (Z.leb_spec 0 (py_len raw_data)) as [_ | Hneg].
  - apply IH.
  - unfold py_len in Hneg. lia.
Qed.

(** C3.  The constructor stores whatever horizon it is given, zero and
    negative ones too, and raises nothing; only the property setter rejects a
    horizon that is not positive. *)
Theorem init_stores_unchecked_horizon (seed : option Z) (value : Z) :
  (exists self,
     __init__ seed (Some value) = Ok self /\ _horizon_length self = value) /\
  (value <= 0 ->
   forall self, horizon_length_setter value self = Raise ValueError).
Proof.
  split.
  - eexists. split; reflexivity.
  - intros Hle self. unfold horizon_length_setter.
    now destruct (Z.leb_spec value 0); [| lia].
Qed.

Lemma init_stores_unchecked_horizon_witness :
  __init__ (Some 20) (Some 0) = Ok (fresh 20 0) /\
  horizon_length_setter 0 (fresh 20 24) = Raise ValueError.
Proof.
  destruct (init_stores_unchecked_horizon (Some 20) 0) as [_ Hset].
  split; [reflexivity | apply Hset; lia].
Defined.

(** ** C4: no knee *)

Section ClusterCount.
Context `{Collaborators}.

(** C4.  [get_optimal_n_clusters] never hands a null cluster count to its
    caller; when the sweep went through and the knee detector found no knee,
    the comparison with [kmax] raises [TypeError] and nothing is returned. *)
Theorem get_optimal_n_clusters_null_knee
    (daily_data : DataFrame Z) (kmin kmax : option Z) (w : world) :
  (forall inertia_values,
     fst (get_optimal_n_clusters daily_data kmin kmax w)
     <> Ok (None, inertia_values)) /\
  (forall g inertia_values w1,
     np_random_seed (_seed (model w)) = Ok g ->
     inertia_sweep (py_range (default 4 kmin) (default 30 kmax))
       (df_transpose_rows daily_data) []
       (mkWorld (model w) g
          match kmax with None => log w ++ [KmaxNotSet] | Some _ => log w end)
     = (Ok inertia_values, w1) ->
     KneeLocator_knee (py_range (default 4 kmin) (default 30 kmax)) inertia_values
     = Ok None ->
     get_optimal_n_clusters daily_data kmin kmax w = (Raise TypeError, w1)).
Proof.
  split.
  - intros inertia_values.
    unfold get_optimal_n_clusters, bind, warn, modify, ret, gets, lift,
      seed_generator.
    destruct kmax as [k |]; cbn [fst snd model log np_random];
      destruct (np_random_seed _); cbn; try easy;
      destruct (inertia_sweep _ _ _ _) as [[iv | e |] w'];
      cbn; try easy;
      destruct (KneeLocator_knee _ _) as [[n |] | e |]; cbn; try easy;
      destruct (_ <=? _); cbn; easy.
  - intros g inertia_values w1 Hseed Hsweep Hknee.
    unfold get_optimal_n_clusters, bind, warn, modify, ret, gets, lift,
      seed_generator.
    destruct kmax as [k |]; cbn -[py_range inertia_sweep] in *;
      rewrite Hseed, Hsweep, Hknee; reflexivity.
Qed.
End ClusterCount.

Lemma get_optimal_n_clusters_null_knee_witness :
  exists w1,
    get_optimal_n_clusters two_day_table (Some 1) (Some 3)
      (standin_world (fresh 20 24) 0)
    = (Raise TypeError, w1).
Proof.
  eexists.
  eapply (proj2 (get_optimal_n_clusters_null_knee two_day_table
                   (Some 1) (Some 3) (standin_world (fresh 20 24) 0))).
  - reflexivity.
  - vm_compute. reflexivity.
  - reflexivity.
Defined.

(** ** C6: the ramp-up constraint *)

Lemma omap_ok {A B : Type} (f : A -> outcome B) : forall l ys,
  omap f l = Ok ys -> Forall2 (fun x y => f x = Ok y) l ys.
Proof.
  induction l as [| x l IH]; intros ys Hok; cbn in Hok.
  - inversion Hok. constructor.
  - destruct (f x) as [y | e |] eqn:Hx; cbn in Hok; try discriminate.
    destruct (omap f l) as [ys' | e |]; cbn in Hok; try discriminate.
    inversion Hok; subst. constructor; auto.
Qed.

Lemma indexed_constraint_in index_set rule cons t rel :
  indexed_constraint index_set rule = Ok cons ->
  In (t, rel) cons -> In t index_set /\ rule t = Ok rel.
Proof.
  unfold indexed_constraint. intros Hok%omap_ok Hin.
  induction Hok as [| t' c l cs Hc Hrest IH]; [easy |].
  destruct Hin as [-> | Hin].
  - destruct (rule t') as [r | e |] eqn:Hr; cbn in Hc; try discriminate.
    inversion Hc; subst. split; [now left | easy].
  - destruct (IH Hin) as [Ht Hr]. split; [now right | easy].
Qed.

(** What the rule returns when it returns. *)
Lemma ramp_up_con_rule_ok ps range_time_periods sl ru mo t rel :
  ramp_up_con_rule ps range_time_periods sl ru mo t = Ok rel ->
  exists now before power power' su su' om om',
    period_at ps range_time_periods t = Ok now /\
    period_at ps range_time_periods (t - 1) = Ok before /\
    opt_power now = Some power /\ opt_power before = Some power' /\
    startup now = Some su /\ startup before = Some su' /\
    op_mode now = Some om /\ op_mode before = Some om' /\
    rel = RelLe (Sub power power')
            (Add (Add (Sub (Mul (Num sl) su) (Mul (Num mo) su')) (Mul (Num ru) om))
                 (Mul (Num mo) (Sub om om'))).
Proof.
  unfold ramp_up_con_rule, attr. intros Hok.
  destruct (period_at ps range_time_periods t) as [now | |] eqn:Hnow;
    try discriminate.
  cbn in Hok. destruct (opt_power now) as [power |] eqn:Hp; try discriminate.
  cbn in Hok.
  destruct (period_at ps range_time_periods (t - 1)) as [before | |] eqn:Hbefore;
    try discriminate.
  cbn in Hok. destruct (opt_power before) as [power' |] eqn:Hp'; try discriminate.
  cbn in Hok. destruct (startup now) as [su |] eqn:Hsu; try discriminate.
  cbn in Hok. destruct (startup before) as [su' |] eqn:Hsu'; try discriminate.
  cbn in Hok. destruct (op_mode now) as [om |] eqn:Hom; try discriminate.
  cbn in Hok. destruct (op_mode before) as [om' |] eqn:Hom'; try discriminate.
  cbn in Hok. inversion Hok; subst.
  exists now, before, power, power', su, su', om, om'. now repeat split.
Qed.

Lemma py_index_nil {A : Type} t : py_index (@nil A) t = Raise IndexError.
Proof.
  unfold py_index, py_len.
  change (Z.of_nat (length (@nil A))) with 0. change (- 0) with 0.
  destruct (Z.ltb_spec t 0); [reflexivity |].
  destruct (Z.leb_spec 0 t); [reflexivity | lia].
Qed.




(** ** C8: the objective *)

Lemma objectives_set_other name c decls :
  is_objective (name, c) = false ->
  objectives decls = [] -> objectives (set_component name c decls) = [].
Proof.
  unfold objectives. intros Hc.
  induction decls as [| [n c'] decls IH]; cbn; intros Hnone.
  - now rewrite Hc.
  - destruct (is_objective (n, c')) eqn:Hn; [discriminate |].
    destruct (String.eqb n name); cbn.
    + unfold is_objective in *. cbn in *. now rewrite Hc.
    + rewrite Hn. now apply IH.
Qed.

Lemma objectives_set_objective name e s decls :
  objectives decls = [] ->
  objectives (set_component name (CObjective e s) decls) = [(name, CObjective e s)].
Proof.
  unfold objectives.
  induction decls as [| [n c'] decls IH]; cbn; intros Hnone; [easy |].
  destruct (is_objective (n, c')) eqn:Hn; [discriminate |].
  destruct (String.eqb_spec n name) as [-> | Hne]; cbn.
  - now rewrite Hnone.
  - rewrite Hn. now apply IH.
Qed.

Lemma in_set_component name c decls : In (name, c) (set_component name c decls).
Proof.
  induction decls as [| [n c'] decls IH]; cbn; [now left |].
  destruct (String.eqb_spec n name) as [-> | Hne]; [now left | now right].
Qed.

Lemma in_set_component_other name c name' c' decls :
  String.eqb name name' = false ->
  In (name, c) decls -> In (name, c) (set_component name' c' decls).
Proof.
  intros Hne. induction decls as [| [n d] decls IH]; cbn; [easy |].
  intros [Heq | Hin].
  - inversion Heq; subst. rewrite Hne. now left.
  - destruct (String.eqb n name'); [now right | right; auto].
Qed.

(** Running a computation step by step. *)
Lemma bind_ok {S A B : Type} (c : M S A) (k : A -> M S B) s b s' :
  bind c k s = (Ok b, s') ->
  exists a s1, c s = (Ok a, s1) /\ k a s1 = (Ok b, s').
Proof.
  unfold bind. destruct (c s) as [[a | e |] s1]; intros Hk; try discriminate.
  now exists a, s1.
Qed.

Lemma lift_ok {S A : Type} (c : outcome A) (s : S) a s' :
  lift c s = (Ok a, s') -> c = Ok a /\ s' = s.
Proof. unfold lift. intros Heq. now inversion Heq. Qed.

Lemma declare_keeps_none name c s r s' :
  declare name c s = (r, s') ->
  is_objective (name, c) = false ->
  objectives (components s) = [] -> objectives (components s') = [].
Proof.
  intros Hrun Hc Hnone. injection Hrun as _ <-. cbn.
  now apply objectives_set_other.
Qed.

Lemma declare_objective name e sn s r s' :
  declare name (CObjective e sn) s = (r, s') ->
  objectives (components s) = [] ->
  objectives (components s') = [(name, CObjective e sn)].
Proof.
  intros Hrun Hnone. injection Hrun as _ <-. cbn.
  now apply objectives_set_objective.
Qed.

Lemma declare_in name c s r s' :
  declare name c s = (r, s') -> In (name, c) (components s').
Proof. intros Hrun. injection Hrun as _ <-. cbn. apply in_set_component. Qed.

Lemma declare_keeps_in name c s r s' n d :
  declare name c s = (r, s') ->
  String.eqb n name = false ->
  In (n, d) (components s) -> In (n, d) (components s').
Proof.
  intros Hrun Hne Hin. injection Hrun as _ <-. cbn.
  now apply in_set_component_other.
Qed.

(** One [declare] of a component that is no objective, at the head of the
    computation [H]: the model still has no objective. *)
Ltac declare_step H Hnone :=
  let a := fresh "a" in
  let s := fresh "s" in
  let Hd := fresh "Hd" in
  apply bind_ok in H as (a & s & Hd & H);
  apply (declare_keeps_none _ _ _ _ _ Hd eq_refl) in Hnone;
  clear Hd a.

(** C8.  On a model without an objective, when [build_cashflows] returns it
    has declared the NPV and the annualized NPV expressions; for each of the
    three recognised strings the model then has exactly one objective, a
    maximization of the expression the string names; for ["Net Profit"] that
    is the net-profit variable, which is neither of the two expressions.  Any
    other string declares no objective. *)
Theorem build_cashflows_one_objective
    (lifetime : Z) (discount_rate corp_tax other_costs other_revenue : Q)
    (objective : string) (self self' : PriceTakerModel) :
  objectives (components self) = [] ->
  build_cashflows lifetime discount_rate corp_tax other_costs other_revenue objective self
  = (Ok tt, self') ->
  exists factor inverse,
    constant_cf_factor lifetime discount_rate = Ok factor /\
    py_div 1 factor = Ok inverse /\
    In ("NPV"%string,
        CExpression (Sub (Mul (Num factor) (Leaf "NET_PROFIT")) (Leaf "CAPEX")))
      (components self') /\
    In ("Annualized_NPV"%string,
        CExpression (Sub (Leaf "NET_PROFIT") (Mul (Num inverse) (Leaf "CAPEX"))))
      (components self') /\
    (objective = "NPV"%string ->
     objectives (components self')
     = [("obj"%string,
         CObjective (Sub (Mul (Num factor) (Leaf "NET_PROFIT")) (Leaf "CAPEX")) maximize)]) /\
    (objective = "Annualized NPV"%string ->
     objectives (components self')
     = [("obj"%string,
         CObjective (Sub (Leaf "NET_PROFIT") (Mul (Num inverse) (Leaf "CAPEX"))) maximize)]) /\
    (objective = "Net Profit"%string ->
     objectives (components self')
     = [("obj"%string, CObjective (Leaf "NET_PROFIT") maximize)] /\
     Leaf "NET_PROFIT" <> Sub (Mul (Num factor) (Leaf "NET_PROFIT")) (Leaf "CAPEX") /\
     Leaf "NET_PROFIT" <> Sub (Leaf "NET_PROFIT") (Mul (Num inverse) (Leaf "CAPEX"))) /\
    (objective <> "NPV"%string -> objective <> "Annualized NPV"%string ->
     objective <> "Net Profit"%string ->
     objectives (components self') = []).
Proof.
  intros Hnone Hrun. unfold build_cashflows in Hrun.
  apply bind_ok in Hrun as (blks & s0 & Hblks & Hrun).
  injection Hblks as <- <-.
  do 5 declare_step Hrun Hnone.
  apply bind_ok in Hrun as ([] & s' & Hlife & Hrun).
  destruct (lifetime =? 0); [discriminate Hlife |]. injection Hlife as <-.
  do 2 declare_step Hrun Hnone.
  apply bind_ok in Hrun as (mp & s' & Hget & Hrun).
  unfold get_mp_model in Hget.
  apply bind_ok in Hget as (omp & s'' & Hg1 & Hg2).
  injection Hg1 as <- <-. apply lift_ok in Hg2 as [_ ->].
  apply bind_ok in Hrun as (inflows & s' & Hin & Hrun).
  apply lift_ok in Hin as [_ ->].
  do 5 declare_step Hrun Hnone.
  apply bind_ok in Hrun as (factor & s' & Hfactor & Hrun).
  apply lift_ok in Hfactor as [Hfactor ->].
  apply bind_ok in Hrun as ([] & s' & Hnpv & Hrun).
  pose proof (declare_in _ _ _ _ _ Hnpv) as Hin_npv.
  apply (declare_keeps_none _ _ _ _ _ Hnpv eq_refl) in Hnone. clear Hnpv.
  apply bind_ok in Hrun as (inverse & s'' & Hinverse & Hrun).
  apply lift_ok in Hinverse as [Hinverse ->].
  apply bind_ok in Hrun as ([] & s'' & Hann & Hrun).
  pose proof (declare_in _ _ _ _ _ Hann) as Hin_ann.
  eapply declare_keeps_in in Hin_npv; [| exact Hann | reflexivity].
  apply (declare_keeps_none _ _ _ _ _ Hann eq_refl) in Hnone. clear Hann.
  exists factor, inverse. split; [exact Hfactor |]. split; [exact Hinverse |].
  destruct (String.eqb_spec objective "NPV") as [-> | Hne1].
  { pose proof (declare_objective _ _ _ _ _ _ Hrun Hnone) as Hobj.
    eapply declare_keeps_in in Hin_npv; [| exact Hrun | reflexivity].
    eapply declare_keeps_in in Hin_ann; [| exact Hrun | reflexivity].
    split; [exact Hin_npv |]. split; [exact Hin_ann |].
    split; [intros _; exact Hobj |].
    split; [intros Heq; discriminate Heq |].
    split; [intros Heq; discriminate Heq | intros Hne _ _; now contradict Hne]. }
  destruct (String.eqb_spec objective "Annualized NPV") as [-> | Hne2].
  { pose proof (declare_objective _ _ _ _ _ _ Hrun Hnone) as Hobj.
    eapply declare_keeps_in in Hin_npv; [| exact Hrun | reflexivity].
    eapply declare_keeps_in in Hin_ann; [| exact Hrun | reflexivity].
    split; [exact Hin_npv |]. split; [exact Hin_ann |].
    split; [intros Heq; discriminate Heq |].
    split; [intros _; exact Hobj |].
    split; [intros Heq; discriminate Heq | intros _ Hne _; now contradict Hne]. }
  destruct (String.eqb_spec objective "Net Profit") as [-> | Hne3].
  { pose proof (declare_objective _ _ _ _ _ _ Hrun Hnone) as Hobj.
    eapply declare_keeps_in in Hin_npv; [| exact Hrun | reflexivity].
    eapply declare_keeps_in in Hin_ann; [| exact Hrun | reflexivity].
    split; [exact Hin_npv |]. split; [exact Hin_ann |].
    split; [intros Heq; discriminate Heq |].
    split; [intros Heq; discriminate Heq |].
    split; [| intros _ _ Hne; now contradict Hne].
    intros _. split; [exact Hobj |]. split; intros Heq; discriminate Heq. }
  injection Hrun as <-.
  split; [exact Hin_npv |]. split; [exact Hin_ann |].
  split; [intros Heq; contradiction |].
  split; [intros Heq; contradiction |].
  split; [intros Heq; contradiction | intros _ _ _; exact Hnone].
Qed.

Lemma build_cashflows_one_objective_witness :
  objectives
    (components
       (snd (build_cashflows 30 (8 # 100) (2 # 10) 0 0 "Net Profit" plant_with_cashflows)))
  = [("obj"%string, CObjective (Leaf "NET_PROFIT") maximize)].
Proof.
  destruct (build_cashflows_one_objective 30 (8 # 100) (2 # 10) 0 0 "Net Profit"
              plant_with_cashflows
              (snd (build_cashflows 30 (8 # 100) (2 # 10) 0 0 "Net Profit"
                      plant_with_cashflows)))
    as (factor & inverse & _ & _ & _ & _ & _ & _ & Hnet & _).
  - reflexivity.
  - vm_compute. reflexivity.
  - apply Hnet. reflexivity.
Defined.

(** ** C9: the derived expressions on a repeated call *)



(** ** C10: the noise clamp *)

Lemma ofold_app {A B : Type} (body : B -> A -> outcome B) l1 l2 acc :
  ofold body (l1 ++ l2) acc = (let? a := ofold body l1 acc in ofold body l2 a).
Proof.
  revert acc. induction l1 as [| x l1 IH]; intros acc; cbn; [easy |].
  destruct (body acc x); cbn; auto.
Qed.

Lemma py_index_nat {A : Type} (l : list A) (i : nat) x :
  l !! i = Some x -> py_index l (Z.of_nat i) = Ok x.
Proof.
  intros Hx. pose proof (lookup_lt_Some _ _ _ Hx) as Hlt.
  unfold py_index, py_len.
  destruct (Z.ltb_spec (Z.of_nat i) (- Z.of_nat (length l))); [lia |].
  destruct (Z.leb_spec (Z.of_nat (length l)) (Z.of_nat i)); [lia |].
  cbn [orb]. destruct (Z.ltb_spec (Z.of_nat i) 0); [lia |].
  now rewrite Nat2Z.id, Hx.
Qed.

Lemma py_index_beyond {A : Type} (l : list A) (i : Z) :
  py_len l <= i -> py_index l i = Raise IndexError.
Proof.
  intros Hle. unfold py_index.
  destruct (Z.leb_spec (py_len l) i); [| lia]. now rewrite orb_true_r.
Qed.

Lemma clamp_upto_lookup k row t :
  clamp_upto k row !! t
  = (fun x => if (t <? k)%nat then clamp_value x else x) <$> row !! t.
Proof. unfold clamp_upto. apply list_lookup_imap. Qed.

Lemma clamp_upto_length k row : length (clamp_upto k row) = length row.
Proof. unfold clamp_upto. apply length_imap. Qed.

Lemma clamp_upto_0 row : clamp_upto 0 row = row.
Proof.
  apply list_eq. intros t. rewrite clamp_upto_lookup.
  now destruct (row !! t).
Qed.

Lemma clamp_upto_S k row x :
  row !! k = Some x ->
  clamp_upto (S k) row = <[k := clamp_value x]> (clamp_upto k row).
Proof.
  intros Hx. apply list_eq. intros t.
  destruct (decide (t = k)) as [-> | Hne].
  - rewrite list_lookup_insert_eq
      by (rewrite clamp_upto_length; now apply lookup_lt_Some in Hx).
    rewrite clamp_upto_lookup, Hx.
    replace (k <? S k)%nat with true by (symmetry; apply Nat.ltb_lt; lia).
    reflexivity.
  - rewrite list_lookup_insert_ne by congruence.
    assert (E : (t <? S k)%nat = (t <? k)%nat)
      by (destruct (Nat.ltb_spec t (S k)), (Nat.ltb_spec t k);
          try reflexivity; lia).
    now rewrite !clamp_upto_lookup, E.
Qed.

(** The clamp loop of one cluster, through its first [k] hours. *)
Lemma clamp_hours_prefix (centroids : list (list Q)) (d : nat) row :
  centroids !! d = Some row ->
  forall k : nat, (k <= length row)%nat ->
    ofold (fun c t => clamp_step c (Z.of_nat d) t) (py_range 0 (Z.of_nat k)) centroids
    = Ok (<[d := clamp_upto k row]> centroids).
Proof.
  intros Hrow. induction k as [| k IH]; intros Hk.
  - cbn. rewrite clamp_upto_0. now rewrite list_insert_id.
  - rewrite Nat2Z.inj_succ. unfold Z.succ. rewrite py_range_snoc by lia.
    rewrite ofold_app, IH by lia. cbn [obind ofold].
    destruct (lookup_lt_is_Some_2 row k ltac:(lia)) as [x Hx].
    unfold clamp_step.
    rewrite (py_index_nat _ d (clamp_upto k row))
      by (apply list_lookup_insert_eq; now apply lookup_lt_Some in Hrow).
    cbn [obind].
    rewrite (py_index_nat _ k x).
    2:{ rewrite clamp_upto_lookup, Hx.
        now rewrite Nat.ltb_irrefl. }
    cbn [obind]. rewrite !Nat2Z.id, (clamp_upto_S k row x Hx).
    unfold clamp_value. destruct (Qltb x noise_threshold); cbn [obind ofold].
    + now rewrite list_insert_insert_eq.
    + f_equal. f_equal. symmetry. apply list_insert_id.
      rewrite clamp_upto_lookup, Hx.
      now rewrite Nat.ltb_irrefl.
Qed.

(** The clamp loop through the first [k] clusters, when every profile has
    its 24 hours. *)
Lemma clamp_clusters_prefix (centroids : list (list Q)) :
  Forall (fun row => (24 <= length row)%nat) centroids ->
  forall k : nat, (k <= length centroids)%nat ->
    ofold (fun c d => ofold (fun c' t => clamp_step c' d t) (py_range 0 24) c)
      (py_range 0 (Z.of_nat k)) centroids
    = Ok (imap (fun d row => if (d <? k)%nat then clamp_upto 24 row else row) centroids).
Proof.
  intros Hrows. induction k as [| k IH]; intros Hk.
  - cbn. f_equal. apply list_eq. intros d. rewrite list_lookup_imap.
    now destruct (centroids !! d).
  - rewrite Nat2Z.inj_succ. unfold Z.succ. rewrite py_range_snoc by lia.
    rewrite ofold_app, IH by lia. cbn [obind ofold].
    destruct (lookup_lt_is_Some_2 centroids k ltac:(lia)) as [row Hrow].
    assert (Hlen : (24 <= length row)%nat).
    { rewrite Forall_forall in Hrows. apply Hrows.
      eapply list_elem_of_lookup_2. exact Hrow. }
    change 24 with (Z.of_nat 24) at 1.
    rewrite (clamp_hours_prefix _ k row); [| | exact Hlen].
    2:{ rewrite list_lookup_imap, Hrow.
        now rewrite Nat.ltb_irrefl. }
    cbn [obind]. f_equal. apply list_eq. intros d.
    destruct (decide (d = k)) as [-> | Hne].
    + rewrite list_lookup_insert_eq by (rewrite length_imap; lia).
      rewrite list_lookup_imap, Hrow.
      replace (k <? S k)%nat with true by (symmetry; apply Nat.ltb_lt; lia).
      reflexivity.
    + rewrite list_lookup_insert_ne by congruence.
      assert (E : (d <? S k)%nat = (d <? k)%nat)
        by (destruct (Nat.ltb_spec d (S k)), (Nat.ltb_spec d k);
            try reflexivity; lia).
      now rewrite !list_lookup_imap, E.
Qed.

Lemma py_range_app a b c : a <= b <= c -> py_range a c = py_range a b ++ py_range b c.
Proof.
  intros Hb. unfold py_range.
  replace (Z.to_nat (c - a)) with (Z.to_nat (b - a) + Z.to_nat (c - b))%nat by lia.
  rewrite seq_app, map_app. f_equal. cbn [Nat.add].
  assert (E : seq (Z.to_nat (b - a)) (Z.to_nat (c - b))
              = map (Nat.add (Z.to_nat (b - a))) (seq 0 (Z.to_nat (c - b)))).
  { change (map (Nat.add ?j) ?l) with (Nat.add j <$> l).
    rewrite fmap_add_seq. f_equal. lia. }
  rewrite E, map_map. apply map_ext. intros i. lia.
Qed.

Lemma clamp_value_below x : (x < noise_threshold)%Q -> clamp_value x = 0%Q.
Proof.
  intros Hlt. unfold clamp_value, Qltb.
  destruct (Qle_bool noise_threshold x) eqn:Hle; [| reflexivity].
  apply Qle_bool_iff in Hle. now apply Qlt_not_le in Hlt.
Qed.

Lemma clamp_value_above x : (noise_threshold <= x)%Q -> clamp_value x = x.
Proof.
  intros Hle. unfold clamp_value, Qltb.
  apply Qle_bool_iff in Hle. now rewrite Hle.
Qed.

Lemma clamp_upto_all (row : list Q) k :
  (length row <= k)%nat -> clamp_upto k row = map clamp_value row.
Proof.
  intros Hk. apply list_eq. intros t.
  rewrite clamp_upto_lookup, list_lookup_fmap.
  destruct (row !! t) as [x |] eqn:Hx; [| reflexivity].
  apply lookup_lt_Some in Hx.
  replace (t <? k)%nat with true by (symmetry; apply Nat.ltb_lt; lia).
  reflexivity.
Qed.

(** C10.  The clamp loop runs over the hours 0 to 23 whatever the length [h]
    of the centroid profiles.  With [h = 24] every entry becomes
    [clamp_value] of itself: 0 when it is below the threshold (any negative
    price is), itself otherwise.  With [h < 24] and at least one cluster the
    loop reads past the end of the first profile and raises [IndexError]; a
    run of [cluster_lmp_data] with a horizon of 12 ends so.  With [h >= 24]
    the hours from 24 on are left as they were. *)
Theorem clamp_centroids_by_horizon
    (n_clusters : Z) (centroids : list (list Q)) (h : nat) :
  py_len centroids = n_clusters ->
  Forall (fun row => length row = h) centroids ->
  (h = 24%nat ->
   clamp_centroids n_clusters centroids = Ok (map (map clamp_value) centroids)) /\
  ((h < 24)%nat -> 1 <= n_clusters ->
   clamp_centroids n_clusters centroids = Raise IndexError) /\
  ((24 <= h)%nat ->
   clamp_centroids n_clusters centroids = Ok (map (clamp_upto 24) centroids)) /\
  (forall (row : list Q) t, (24 <= t)%nat -> clamp_upto 24 row !! t = row !! t) /\
  (forall (row : list Q) t,
     (t < 24)%nat -> clamp_upto 24 row !! t = clamp_value <$> row !! t) /\
  (forall x, (x < noise_threshold)%Q -> clamp_value x = 0%Q) /\
  (forall x, (x < 0)%Q -> clamp_value x = 0%Q) /\
  (forall x, (noise_threshold <= x)%Q -> clamp_value x = x) /\
  fst (cluster_lmp_data 10 (PDataFrame two_day_sheet) 2 None
         (standin_world (fresh 20 12) 0))
  = Raise IndexError.
Proof.
  intros Hn Hrows.
  assert (Hlong : (24 <= h)%nat ->
            clamp_centroids n_clusters centroids = Ok (map (clamp_upto 24) centroids)).
  { intros Hh. unfold clamp_centroids. subst n_clusters. unfold py_len.
    rewrite clamp_clusters_prefix; [| | lia].
    - f_equal. apply list_eq. intros d.
      rewrite list_lookup_imap, list_lookup_fmap.
      destruct (centroids !! d) as [row |] eqn:Hrow; [| reflexivity].
      apply lookup_lt_Some in Hrow.
      replace (d <? length centroids)%nat with true
        by (symmetry; apply Nat.ltb_lt; lia).
      reflexivity.
    - eapply Forall_impl; [exact Hrows |]. cbn. intros row ->. exact Hh. }
  split; [| split; [| split; [exact Hlong |]]].
  - intros ->. rewrite Hlong by lia. f_equal.
    apply map_ext_in. intros row Hrow. apply clamp_upto_all.
    rewrite Forall_forall in Hrows. rewrite (Hrows row); [lia |].
    now apply list_elem_of_In.
  - intros Hh Hone. unfold clamp_centroids.
    destruct centroids as [| row rest]; [unfold py_len in Hn; cbn in Hn; lia |].
    apply Forall_cons in Hrows as [Hrow _].
    rewrite (py_range_cons 0 n_clusters) by lia. cbn [ofold].
    rewrite (py_range_app 0 (Z.of_nat h) 24) by lia.
    rewrite ofold_app.
    pose proof (clamp_hours_prefix (row :: rest) 0 row eq_refl h ltac:(lia))
      as Hpre.
    change (Z.of_nat 0) with 0 in Hpre. rewrite Hpre. clear Hpre.
    cbn [obind]. rewrite (py_range_cons (Z.of_nat h)) by lia. cbn [ofold].
    unfold clamp_step at 1. cbn [insert list_insert].
    change (py_index (clamp_upto h row :: rest) 0) with (Ok (clamp_upto h row)).
    cbn [obind]. rewrite py_index_beyond; [reflexivity |].
    unfold py_len. rewrite clamp_upto_length. lia.
  - split; [| split; [| split; [| split; [| split]]]].
    + intros row t Ht. rewrite clamp_upto_lookup.
      replace (t <? 24)%nat with false by (symmetry; apply Nat.ltb_ge; lia).
      now destruct (row !! t).
    + intros row t Ht. rewrite clamp_upto_lookup.
      replace (t <? 24)%nat with true by (symmetry; apply Nat.ltb_lt; lia).
      reflexivity.
    + exact clamp_value_below.
    + intros x Hx. apply clamp_value_below.
      apply (Qlt_trans _ 0); [exact Hx | reflexivity].
    + exact clamp_value_above.
    + vm_compute. reflexivity.
Qed.

Lemma clamp_centroids_by_horizon_witness :
  clamp_centroids 1 [noisy_centroid] = Ok [[0; 0]%Q ++ repeat (5 # 1)%Q 22].
Proof.
  destruct (clamp_centroids_by_horizon 1 [noisy_centroid] 24) as (Hday & _).
  - reflexivity.
  - repeat constructor.
  - rewrite Hday by reflexivity. vm_compute. reflexivity.
Defined.

(** ** C7: the weights of the clusters *)

Lemma py_range_lookup a b (i : nat) :
  (i < Z.to_nat (b - a))%nat -> py_range a b !! i = Some (a + Z.of_nat i).
Proof.
  intros Hi. unfold py_range.
  change (map ?f ?l) with (f <$> l).
  rewrite list_lookup_fmap, lookup_seq_lt by lia. reflexivity.
Qed.

Lemma lookup_repeat_lt {A : Type} (x : A) n i :
  (i < n)%nat -> repeat x n !! i = Some x.
Proof.
  revert i. induction n as [| n IH]; intros [| i] Hi; cbn; try lia; [easy |].
  apply IH. lia.
Qed.

Lemma tally_length n labels : length (tally n labels) = Z.to_nat n.
Proof. unfold tally. rewrite length_map, py_range_length. lia. Qed.

Lemma tally_lookup n labels (k : nat) :
  (k < Z.to_nat n)%nat ->
  tally n labels !! k = Some (Z.of_nat (count_occ Z.eq_dec labels (Z.of_nat k))).
Proof.
  intros Hk. unfold tally. change (map ?f ?l) with (f <$> l).
  rewrite list_lookup_fmap, py_range_lookup by lia. reflexivity.
Qed.

Lemma inject_Z_succ c : (inject_Z c + 1)%Q = inject_Z (c + 1).
Proof. unfold Qplus, inject_Z. cbn. f_equal. lia. Qed.

Lemma count_occ_snoc (ls : list Z) l k :
  count_occ Z.eq_dec (ls ++ [l]) k
  = (count_occ Z.eq_dec ls k + if Z.eq_dec l k then 1 else 0)%nat.
Proof. rewrite count_occ_app. cbn. now destruct (Z.eq_dec l k). Qed.

(** The counting loop of one sample, through the first [k] clusters. *)
Lemma count_clusters_prefix labels (j : nat) l (wc : list Q) :
  labels !! j = Some l ->
  forall k : nat, (k <= length wc)%nat ->
    ofold (fun wc' c => count_step labels wc' (Z.of_nat j) c)
      (py_range 0 (Z.of_nat k)) wc
    = Ok (if decide (0 <= l < Z.of_nat k) then bump (Z.to_nat l) wc else wc).
Proof.
  intros Hl. induction k as [| k IH]; intros Hk.
  - change (Z.of_nat 0) with 0. rewrite (py_range_nil 0 0) by lia. cbn [ofold].
    destruct (decide (0 <= l < 0)); [lia | reflexivity].
  - rewrite Nat2Z.inj_succ. unfold Z.succ. rewrite py_range_snoc by lia.
    rewrite ofold_app, IH by lia. cbn [obind ofold].
    unfold count_step. rewrite (py_index_nat _ _ _ Hl). cbn [obind].
    destruct (Z.eqb_spec l (Z.of_nat k)) as [-> | Hne].
    + destruct (decide (0 <= Z.of_nat k < Z.of_nat k)); [lia |].
      destruct (decide (0 <= Z.of_nat k < Z.of_nat k + 1)); [| lia].
      destruct (lookup_lt_is_Some_2 wc k ltac:(lia)) as [w Hw].
      rewrite (py_index_nat _ _ _ Hw). cbn [obind].
      unfold bump. now rewrite !Nat2Z.id, Hw.
    + cbn [obind].
      destruct (decide (0 <= l < Z.of_nat k)), (decide (0 <= l < Z.of_nat k + 1));
        try reflexivity; lia.
Qed.

Lemma bump_tally n ls l :
  0 <= n ->
  (if decide (0 <= l < n)
   then bump (Z.to_nat l) (map inject_Z (tally n ls))
   else map inject_Z (tally n ls))
  = map inject_Z (tally n (ls ++ [l])).
Proof.
  intros Hn. apply list_eq. intros i.
  change (map inject_Z ?x) with (inject_Z <$> x).
  destruct (decide (i < Z.to_nat n)%nat) as [Hi | Hi].
  - rewrite (list_lookup_fmap _ (tally n (ls ++ [l]))), tally_lookup by lia.
    rewrite count_occ_snoc. cbn [fmap option_fmap option_map].
    destruct (decide (0 <= l < n)) as [Hl | Hl].
    + unfold bump. rewrite list_lookup_fmap, tally_lookup by lia.
      cbn [fmap option_fmap option_map].
      destruct (decide (i = Z.to_nat l)) as [-> | Hne].
      * rewrite list_lookup_insert_eq by (rewrite length_fmap, tally_length; lia).
        rewrite inject_Z_succ, Z2Nat.id by lia.
        destruct (Z.eq_dec l l); [| congruence]. do 2 f_equal. lia.
      * rewrite list_lookup_insert_ne by congruence.
        rewrite list_lookup_fmap, tally_lookup by lia.
        cbn [fmap option_fmap option_map].
        destruct (Z.eq_dec l (Z.of_nat i)); [lia |]. do 2 f_equal. lia.
    + rewrite list_lookup_fmap, tally_lookup by lia.
      cbn [fmap option_fmap option_map].
      destruct (Z.eq_dec l (Z.of_nat i)); [lia |]. do 2 f_equal. lia.
  - assert (Hnone : forall ls', (inject_Z <$> tally n ls') !! i = None).
    { intros ls'. apply lookup_ge_None. rewrite length_fmap, tally_length. lia. }
    rewrite (Hnone (ls ++ [l])).
    destruct (decide (0 <= l < n)); [| apply Hnone].
    unfold bump. destruct (_ !! Z.to_nat l); [| apply Hnone].
    apply lookup_ge_None. rewrite length_insert, length_fmap, tally_length. lia.
Qed.

(** The counting loop through the first [m] samples. *)
Lemma count_labels_prefix n labels : 0 <= n ->
  forall m : nat, (m <= length labels)%nat ->
    ofold (fun wc j => ofold (fun wc' k => count_step labels wc' j k) (py_range 0 n) wc)
      (py_range 0 (Z.of_nat m)) (repeat 0%Q (Z.to_nat n))
    = Ok (map inject_Z (tally n (firstn m labels))).
Proof.
  intros Hn. induction m as [| m IH]; intros Hm.
  - change (Z.of_nat 0) with 0. rewrite (py_range_nil 0 0) by lia. cbn [ofold firstn].
    f_equal. apply list_eq. intros i.
    change (map inject_Z ?x) with (inject_Z <$> x).
    destruct (decide (i < Z.to_nat n)%nat) as [Hi | Hi].
    + rewrite list_lookup_fmap, tally_lookup by lia.
      now rewrite lookup_repeat_lt by lia.
    + rewrite !(proj2 (lookup_ge_None _ _)); [reflexivity | |].
      * rewrite length_fmap, tally_length. lia.
      * rewrite repeat_length. lia.
  - rewrite Nat2Z.inj_succ. unfold Z.succ. rewrite py_range_snoc by lia.
    rewrite ofold_app, IH by lia. cbn [obind ofold].
    destruct (lookup_lt_is_Some_2 labels m ltac:(lia)) as [l Hl].
    pose proof (count_clusters_prefix labels m l
                  (map inject_Z (tally n (firstn m labels))) Hl (Z.to_nat n)) as Hin.
    rewrite Z2Nat.id in Hin by lia. rewrite Hin by (rewrite length_map, tally_length; lia).
    cbn [obind]. f_equal. rewrite (take_S_r _ _ _ Hl). now apply bump_tally.
Qed.

Lemma count_labels_tally n labels :
  0 <= n ->
  count_labels n labels (repeat 0%Q (Z.to_nat n)) = Ok (map inject_Z (tally n labels)).
Proof.
  intros Hn. unfold count_labels, py_len.
  rewrite count_labels_prefix by lia. now rewrite firstn_all.
Qed.

Lemma sumZ_map_add {A : Type} (f g : A -> Z) l :
  sumZ (map (fun k => f k + g k) l) = sumZ (map f l) + sumZ (map g l).
Proof.
  unfold sumZ. induction l as [| x l IH]; cbn; [easy |]. rewrite IH. lia.
Qed.

Lemma sumZ_indicator l : forall (len : nat) a,
  sumZ (map (fun k => if Z.eq_dec l k then 1 else 0) (py_range a (a + Z.of_nat len)))
  = if decide (a <= l < a + Z.of_nat len) then 1 else 0.
Proof.
  induction len as [| len IH]; intros a.
  - rewrite py_range_nil by lia. cbn. destruct (decide _); [lia | reflexivity].
  - rewrite py_range_cons by lia.
    replace (a + Z.of_nat (S len)) with (a + 1 + Z.of_nat len) by lia.
    cbn [map]. unfold sumZ in *. cbn [fold_right]. rewrite IH.
    destruct (Z.eq_dec l a), (decide (a + 1 <= l < a + 1 + Z.of_nat len)),
      (decide (a <= l < a + 1 + Z.of_nat len)); lia.
Qed.

Lemma tally_nonneg n labels : Forall (fun c => 0 <= c) (tally n labels).
Proof.
  unfold tally. apply Forall_forall. intros c Hc.
  apply list_elem_of_In, in_map_iff in Hc as (k & <- & _). lia.
Qed.

(** When every label is a cluster, the counts add up to the number of
    labels. *)
Lemma sumZ_tally n labels :
  0 <= n -> Forall (fun l => 0 <= l < n) labels ->
  sumZ (tally n labels) = Z.of_nat (length labels).
Proof.
  intros Hn. induction 1 as [| l labels Hl _ IH].
  - unfold tally. cbn [count_occ Z.of_nat].
    unfold sumZ. induction (py_range 0 n) as [| k ks IHk]; cbn; [easy | now rewrite IHk].
  - unfold tally in *.
    rewrite (map_ext _ (fun k => (if Z.eq_dec l k then 1 else 0)
                                 + Z.of_nat (count_occ Z.eq_dec labels k))).
    2:{ intros k. cbn [count_occ]. destruct (Z.eq_dec l k); lia. }
    rewrite sumZ_map_add, IH.
    pose proof (sumZ_indicator l (Z.to_nat n) 0) as Hone.
    rewrite Z2Nat.id in Hone by lia. change (0 + n) with n in Hone. rewrite Hone.
    destruct (decide (0 <= l < n)); [| lia]. cbn [length]. lia.
Qed.

Lemma enumerate_from_cons {A : Type} a (v : A) vs :
  enumerate_from a (v :: vs) = <[a := v]> (enumerate_from (a + 1) vs).
Proof.
  unfold enumerate_from, py_len. cbn [length].
  rewrite py_range_cons by lia. cbn [zip zip_with list_to_map foldr fst snd].
  do 3 f_equal. f_equal. lia.
Qed.

Lemma enumerate_from_lookup {A : Type} (vs : list A) : forall a k,
  enumerate_from a vs !! k
  = if decide (a <= k) then vs !! Z.to_nat (k - a) else None.
Proof.
  induction vs as [| v vs IH]; intros a k.
  - unfold enumerate_from, py_len. cbn [length Z.of_nat].
    rewrite py_range_nil by lia. cbn. rewrite lookup_empty.
    now destruct (decide (a <= k)).
  - rewrite enumerate_from_cons, lookup_insert, IH.
    destruct (decide (a = k)) as [-> | Hne].
    + destruct (decide (k <= k)); [| lia]. now rewrite Z.sub_diag.
    + destruct (decide (a + 1 <= k)), (decide (a <= k)); try lia; [| easy].
      replace (Z.to_nat (k - a)) with (S (Z.to_nat (k - (a + 1)))) by lia.
      reflexivity.
Qed.

Section Weights.
Context `{Collaborators}.

(** C7.  When [cluster_lmp_data] returns, and the fit gave one label per
    day-column, each the number of a cluster, the weights it returns are,
    under the column label 0 and for the days [1 .. n_clusters], the counts
    of the labels: non-negative integers, the weight of day [d] being the
    number of day-columns labelled [d-1], and their sum is the number of
    day-columns of the daily table. *)
Theorem cluster_weights_count_days
    (fuel : nat) (raw_data : pandas_obj) (n_clusters : Z) (scenarios : option Z)
    (w w' : world) (lmp_data weights : gmap Z (gmap Z Q))
    (daily_data : DataFrame Z) (names : list string) (kmeans : KMeansFit) (g : rng) :
  cluster_lmp_data fuel raw_data n_clusters scenarios w = (Ok (lmp_data, weights), w') ->
  reconfigure_raw_data fuel (model w) raw_data = Ok (daily_data, names) ->
  KMeans_fit n_clusters (df_transpose_rows daily_data) (np_random w) = (Ok kmeans, g) ->
  length (labels_ kmeans) = length (df_columns daily_data) ->
  Forall (fun l => 0 <= l < n_clusters) (labels_ kmeans) ->
  weights = {[ 0 := enumerate_from 1 (map inject_Z (tally n_clusters (labels_ kmeans))) ]} /\
  (forall d, 1 <= d <= n_clusters ->
     weights !! 0 ≫= (fun column => column !! d)
     = Some (inject_Z (Z.of_nat (count_occ Z.eq_dec (labels_ kmeans) (d - 1))))) /\
  py_len (tally n_clusters (labels_ kmeans)) = n_clusters /\
  Forall (fun c => 0 <= c) (tally n_clusters (labels_ kmeans)) /\
  sumZ (tally n_clusters (labels_ kmeans)) = Z.of_nat (length (df_columns daily_data)).
Proof.
  intros Hrun Hrec Hfit Hlen Hlabels.
  unfold cluster_lmp_data, bind, call, lift, ret, fit in Hrun.
  rewrite Hrec in Hrun. cbn [fst snd model np_random] in Hrun.
  rewrite Hfit in Hrun.
  destruct (clamp_centroids _ _) as [centroids | |]; try discriminate.
  unfold np_zeros in Hrun.
  destruct (Z.ltb_spec n_clusters 0) as [Hneg | Hn]; [discriminate |].
  rewrite count_labels_tally in Hrun by exact Hn.
  destruct (rep_days_dict _ _) as [lmp | |]; try discriminate.
  injection Hrun as _ <- _. unfold weights_dict.
  split; [reflexivity |]. split; [| split; [| split]].
  - intros d Hd. rewrite lookup_singleton_eq. cbn [mbind option_bind].
    rewrite enumerate_from_lookup. destruct (decide (1 <= d)); [| lia].
    change (map inject_Z ?x) with (inject_Z <$> x).
    rewrite list_lookup_fmap, tally_lookup by lia.
    cbn [fmap option_fmap option_map]. do 4 f_equal. lia.
  - unfold py_len. rewrite tally_length. lia.
  - apply tally_nonneg.
  - rewrite sumZ_tally by assumption. now rewrite Hlen.
Qed.
End Weights.

Lemma cluster_weights_count_days_witness :
  exists lmp_data weights,
    fst (cluster_lmp_data 10 (PDataFrame two_day_sheet) 2 None
           (standin_world (fresh 20 24) 0))
    = Ok (lmp_data, weights) /\
    weights = {[ 0 := enumerate_from 1 (map inject_Z (tally 2 [0; 1])) ]} /\
    sumZ (tally 2 [0; 1]) = Z.of_nat (length (df_columns two_day_table)).
Proof.
  pose (run := cluster_lmp_data 10 (PDataFrame two_day_sheet) 2 None
                 (standin_world (fresh 20 24) 0)).
  destruct (cluster_weights_count_days 10 (PDataFrame two_day_sheet) 2 None
              (standin_world (fresh 20 24) 0) (snd run)
              (enumerate_from 1 (map (enumerate_from 0)
                                   [repeat (10 # 1)%Q 24; repeat (20 # 1)%Q 24]))
              {[ 0 := enumerate_from 1 [1%Q; 1%Q] ]}
              two_day_table (skipn 2 (map fst (df_columns two_day_sheet)))
              (mkKMeansFit [repeat (10 # 1)%Q 24; repeat (20 # 1)%Q 24] [0; 1] 0) 1)
    as (Hw & _ & _ & _ & Hsum).
  - vm_compute. reflexivity.
  - vm_compute. reflexivity.
  - vm_compute. reflexivity.
  - reflexivity.
  - repeat constructor; lia.
  - do 2 eexists. split; [vm_compute; reflexivity |]. split; [exact Hw | exact Hsum].
Defined.

(** ** Invariants of computations *)






Lemma preserves_modify {S : Type} (P : S -> Prop) (f : S -> S) :
  (forall s, P s -> P (f s)) -> preserves P (modify f).
Proof. intros Hf s Hs. now apply Hf. Qed.


(** ** C5: the two representative-day branches *)

Section RepresentativeDays.
Context `{Collaborators}.











End RepresentativeDays.


(** ** C2: two runs of the loader *)

Lemma reconfigure_raw_data_horizon fuel self1 self2 raw_data :
  _horizon_length self1 = _horizon_length self2 ->
  reconfigure_raw_data fuel self1 raw_data = reconfigure_raw_data fuel self2 raw_data.
Proof.
  intros Hh. unfold reconfigure_raw_data, generate_daily_data.
  now rewrite Hh.
Qed.

Section TwoRuns.
Context `{Collaborators}.
Variable generator : bool.

Lemma respects_ret {A : Type} (a : A) : respects generator (ret a).
Proof. intros w1 w2 Hs. now split. Qed.

Lemma respects_lift {A : Type} (c : outcome A) : respects generator (lift c).
Proof. intros w1 w2 Hs. now split. Qed.

Lemma respects_bind {A B : Type} (c : M world A) (k : A -> M world B) :
  respects generator c -> (forall a, respects generator (k a)) ->
  respects generator (bind c k).
Proof.
  intros Hc Hk w1 w2 Hs. unfold bind. destruct (Hc w1 w2 Hs) as [Hr Hs'].
  destruct (c w1) as [r1 s1], (c w2) as [r2 s2]. cbn [fst snd] in *. subst r2.
  destruct r1 as [a | e |]; [now apply Hk | now split | now split].
Qed.

Lemma respects_for_each {A : Type} (l : list A) (body : A -> M world unit) :
  (forall x, respects generator (body x)) -> respects generator (for_each l body).
Proof.
  intros Hbody. induction l as [| x l IH]; cbn [for_each].
  - apply respects_ret.
  - apply respects_bind; [apply Hbody | intros _; exact IH].
Qed.

Lemma respects_gets {A : Type} (f : world -> A) :
  (forall w1 w2, same_data generator w1 w2 -> f w1 = f w2) ->
  respects generator (gets f).
Proof. intros Hf w1 w2 Hs. split; [cbn; f_equal; now apply Hf | exact Hs]. Qed.

Lemma respects_call {A : Type} (method : PriceTakerModel -> outcome A) :
  (forall self1 self2,
     _horizon_length self1 = _horizon_length self2 -> method self1 = method self2) ->
  respects generator (call method).
Proof.
  intros Hm w1 w2 Hs. split; [| exact Hs]. cbn. apply Hm. apply Hs.
Qed.

Lemma respects_setattr (f : PriceTakerModel -> PriceTakerModel) :
  (forall w1 w2, same_data generator w1 w2 ->
     same_data generator (on_model f w1) (on_model f w2)) ->
  respects generator (setattr f).
Proof. intros Hf w1 w2 Hs. split; [reflexivity | now apply Hf]. Qed.

(** Assigning the same value to an attribute in both worlds. *)
Ltac same_attribute :=
  apply respects_setattr;
  intros ? ? (? & ? & ? & ? & ? & ? & ? & ?);
  unfold same_data; cbn; repeat split; assumption.

Lemma respects_with_set_years v : respects generator (setattr (with_set_years v)).
Proof. same_attribute. Qed.

Lemma respects_with_set_days v : respects generator (setattr (with_set_days v)).
Proof. same_attribute. Qed.

Lemma respects_with_n_time_points v : respects generator (setattr (with_n_time_points v)).
Proof. same_attribute. Qed.

Lemma respects_with_set_time v : respects generator (setattr (with_set_time v)).
Proof. same_attribute. Qed.

Lemma respects_with_LMP v : respects generator (setattr (with_LMP v)).
Proof. same_attribute. Qed.

Lemma respects_with_WEIGHTS v : respects generator (setattr (with_WEIGHTS v)).
Proof. same_attribute. Qed.

Lemma respects_LMP_setitem k v : respects generator (LMP_setitem k v).
Proof.
  unfold LMP_setitem.
  apply respects_bind; [apply respects_gets; intros ? ? Hs; apply Hs |]. intros d.
  apply respects_bind; [apply respects_lift |]. intros d'.
  apply respects_with_LMP.
Qed.

Lemma respects_WEIGHTS_setitem k v : respects generator (WEIGHTS_setitem k v).
Proof.
  unfold WEIGHTS_setitem.
  apply respects_bind; [apply respects_gets; intros ? ? Hs; apply Hs |]. intros d.
  apply respects_bind; [apply respects_lift |]. intros d'.
  apply respects_with_WEIGHTS.
Qed.

Lemma respects_populate lmp_data weights key_t key_d :
  respects generator (populate lmp_data weights key_t key_d).
Proof.
  unfold populate.
  apply respects_bind; [apply respects_gets; intros ? ? Hs; apply Hs |]. intros days.
  do 2 (apply respects_bind; [apply respects_lift |]; intros ?).
  apply respects_for_each. intros d. unfold populate_day.
  apply respects_bind; [apply respects_gets; intros ? ? Hs; apply Hs |]. intros times.
  apply respects_bind; [apply respects_lift |]. intros ?.
  apply respects_for_each. intros t. unfold populate_cell.
  do 2 (apply respects_bind; [apply respects_lift |]; intros ?).
  apply respects_bind; [apply respects_LMP_setitem |]. intros _.
  do 2 (apply respects_bind; [apply respects_lift |]; intros ?).
  apply respects_WEIGHTS_setitem.
Qed.
End TwoRuns.

Section TwoRunsGenerator.
Context `{Collaborators}.

Lemma respects_fit k samples : respects true (fit k samples).
Proof.
  intros w1 w2 Hs. pose proof Hs as (? & ? & ? & ? & ? & ? & ? & Hg).
  unfold fit. rewrite (Hg eq_refl).
  destruct (KMeans_fit k samples (np_random w2)) as [r g]. cbn [fst snd].
  split; [reflexivity |]. unfold same_data. cbn. repeat split; assumption.
Qed.

Lemma respects_cluster_lmp_data fuel raw_data n scenarios :
  respects true (cluster_lmp_data fuel raw_data n scenarios).
Proof.
  unfold cluster_lmp_data.
  apply respects_bind.
  { apply respects_call. intros ? ? Hh. now apply reconfigure_raw_data_horizon. }
  intros reconfigured.
  apply respects_bind; [apply respects_fit |]. intros kmeans.
  do 4 (apply respects_bind; [apply respects_lift |]; intros ?).
  apply respects_ret.
Qed.

(** The loader ends the same way in two worlds that hold the same data and
    whose generators are in the same state. *)
Lemma respects_append_lmp_data fuel full_data column_name n_clusters horizon_length :
  respects true (append_lmp_data fuel full_data column_name n_clusters horizon_length).
Proof.
  unfold append_lmp_data.
  destruct column_name as [c | years], n_clusters as [n |].
  - apply respects_bind; [apply respects_with_set_years |]. intros _.
    apply respects_bind; [apply respects_with_set_days |]. intros _.
    apply respects_bind; [apply respects_with_n_time_points |]. intros _.
    apply respects_bind; [apply respects_with_set_time |]. intros _.
    apply respects_bind; [apply respects_with_LMP |]. intros _.
    apply respects_bind; [apply respects_with_WEIGHTS |]. intros _.
    apply respects_bind; [apply respects_cluster_lmp_data |]. intros clustered.
    apply respects_populate.
  - apply respects_bind; [apply respects_with_set_years |]. intros _.
    apply respects_bind; [apply respects_with_set_days |]. intros _.
    apply respects_bind; [apply respects_with_n_time_points |]. intros _.
    apply respects_bind; [apply respects_with_set_time |]. intros _.
    do 2 (apply respects_bind; [apply respects_lift |]; intros ?).
    apply respects_with_LMP.
  - apply respects_bind; [apply respects_lift |]. intros ys.
    apply respects_bind; [apply respects_with_set_years |]. intros _.
    apply respects_bind; [apply respects_with_set_days |]. intros _.
    apply respects_bind; [apply respects_with_n_time_points |]. intros _.
    apply respects_bind; [apply respects_with_set_time |]. intros _.
    apply respects_bind; [apply respects_with_LMP |]. intros _.
    apply respects_bind; [apply respects_with_WEIGHTS |]. intros _.
    apply respects_for_each. intros year.
    apply respects_bind; [apply respects_lift |]. intros price_data.
    apply respects_bind; [apply respects_cluster_lmp_data |]. intros clustered.
    apply respects_bind; [apply respects_lift |]. intros y.
    apply respects_populate.
  - apply respects_bind; [apply respects_lift |]. intros ys.
    apply respects_bind; [apply respects_with_set_years |]. intros _.
    apply respects_bind; [apply respects_with_set_days |]. intros _.
    apply respects_bind; [apply respects_with_n_time_points |]. intros _.
    apply respects_bind; [apply respects_with_set_time |]. intros _.
    apply respects_bind; [apply respects_with_LMP |]. intros _.
    apply respects_for_each. intros year.
    do 2 (apply respects_bind; [apply respects_lift |]; intros ?).
    apply respects_bind; [apply respects_gets; intros ? ? Hs; apply Hs |]. intros times.
    apply respects_bind; [apply respects_lift |]. intros ?.
    apply respects_for_each. intros t.
    apply respects_bind; [apply respects_lift |]. intros price.
    apply respects_LMP_setitem.
Qed.

(** Without a cluster count the loader draws no random number. *)
Lemma respects_append_lmp_data_full_year fuel full_data column_name horizon_length :
  respects false (append_lmp_data fuel full_data column_name None horizon_length).
Proof.
  unfold append_lmp_data. destruct column_name as [c | years].
  - apply respects_bind; [apply respects_with_set_years |]. intros _.
    apply respects_bind; [apply respects_with_set_days |]. intros _.
    apply respects_bind; [apply respects_with_n_time_points |]. intros _.
    apply respects_bind; [apply respects_with_set_time |]. intros _.
    do 2 (apply respects_bind; [apply respects_lift |]; intros ?).
    apply respects_with_LMP.
  - apply respects_bind; [apply respects_lift |]. intros ys.
    apply respects_bind; [apply respects_with_set_years |]. intros _.
    apply respects_bind; [apply respects_with_set_days |]. intros _.
    apply respects_bind; [apply respects_with_n_time_points |]. intros _.
    apply respects_bind; [apply respects_with_set_time |]. intros _.
    apply respects_bind; [apply respects_with_LMP |]. intros _.
    apply respects_for_each. intros year.
    do 2 (apply respects_bind; [apply respects_lift |]; intros ?).
    apply respects_bind; [apply respects_gets; intros ? ? Hs; apply Hs |]. intros times.
    apply respects_bind; [apply respects_lift |]. intros ?.
    apply respects_for_each. intros t.
    apply respects_bind; [apply respects_lift |]. intros price.
    apply respects_LMP_setitem.
Qed.
End TwoRunsGenerator.

(** C2.  The loader called twice with the same sheet, the same arguments and
    the same configured seed fills [LMP] differently: [cluster_lmp_data] fits
    without seeding the generator, so the second call finds it where the first
    left it (the two days of the sheet come out as clusters 1 and 2 the first
    time and as clusters 2 and 1 the second time). *)
Lemma same_seed_different_prices :
  fst first_load = Ok tt /\
  fst second_load = Ok tt /\
  _seed (model (snd first_load)) = _seed (model (snd second_load)) /\
  LMP (model (snd first_load)) <> LMP (model (snd second_load)).
Proof.
  split; [vm_compute; reflexivity |]. split; [vm_compute; reflexivity |].
  split; [vm_compute; reflexivity |].
  intros Heq.
  apply (f_equal (fun prices => prices ≫= (fun d => d !! KTuple [1; 1]))) in Heq.
  vm_compute in Heq. discriminate Heq.
Qed.

Section Repeatable.
Context `{Collaborators}.

(** What does hold of two runs: the loader never reads the configured
    seed.  Called with the same sheet and arguments in two worlds that hold
    the same data and whose generators are in the same state, whatever their
    seeds, it ends with the same outcome, the same index sets, the same
    [LMP] and [WEIGHTS] and the same generator state.  Without a cluster
    count the state of the generator does not matter either. *)
Theorem append_lmp_data_repeatable
    (fuel : nat) (full_data : DataFrame string) (column_name : column_arg)
    (n_clusters horizon_length : option Z) (w1 w2 : world) :
  (same_data true w1 w2 ->
   fst (append_lmp_data fuel full_data column_name n_clusters horizon_length w1)
   = fst (append_lmp_data fuel full_data column_name n_clusters horizon_length w2) /\
   same_data true
     (snd (append_lmp_data fuel full_data column_name n_clusters horizon_length w1))
     (snd (append_lmp_data fuel full_data column_name n_clusters horizon_length w2))) /\
  (n_clusters = None -> same_data false w1 w2 ->
   fst (append_lmp_data fuel full_data column_name n_clusters horizon_length w1)
   = fst (append_lmp_data fuel full_data column_name n_clusters horizon_length w2) /\
   same_data false
     (snd (append_lmp_data fuel full_data column_name n_clusters horizon_length w1))
     (snd (append_lmp_data fuel full_data column_name n_clusters horizon_length w2))).
Proof.
  split.
  - apply respects_append_lmp_data.
  - intros ->. apply respects_append_lmp_data_full_year.
Qed.
End Repeatable.

Lemma append_lmp_data_repeatable_witness :
  LMP (model (snd (append_lmp_data 10 two_day_sheet (ColumnName "price") (Some 2) None
                     (standin_world (fresh 20 24) 0))))
  = LMP (model (snd (append_lmp_data 10 two_day_sheet (ColumnName "price") (Some 2) None
                       (standin_world (fresh 7 24) 0)))).
Proof.
  destruct (append_lmp_data_repeatable 10 two_day_sheet (ColumnName "price") (Some 2) None
              (standin_world (fresh 20 24) 0) (standin_world (fresh 7 24) 0))
    as [Hsame _].
  destruct Hsame as (_ & _ & _ & _ & _ & _ & Hprices & _).
  - unfold same_data. cbn. repeat split; reflexivity.
  - exact Hprices.
Defined.

(** * Further properties of the builder *)

(** ** The reshaping of the sheet *)

Lemma nonpositive_horizon_loop_never_ends h raw_data : h <= 0 ->
  forall fuel i j day daily_data,
    j <= 0 ->
    generate_daily_data_loop fuel h raw_data i j day daily_data = OutOfFuel.
Proof.
  intros Hh. induction fuel as [| fuel IH]; intros i j day daily_data Hj; cbn;
    [reflexivity |].
  destruct (Z.leb_spec j (py_len raw_data)) as [_ | Hgt].
  - apply IH. lia.
  - unfold py_len in Hgt. lia.
Qed.

(** X1.  With a horizon that is zero or negative the loop of
    [generate_daily_data] never ends: [j] starts at the horizon and only
    decreases, so it never exceeds the length of the series, and every step
    budget runs out. *)
Theorem generate_daily_data_nonpositive_horizon
    (self : PriceTakerModel) (raw_data : Series) (day_list : list Z) (fuel : nat) :
  _horizon_length self <= 0 ->
  generate_daily_data fuel self raw_data day_list = OutOfFuel.
Proof.
  intros Hh. unfold generate_daily_data.
  now apply nonpositive_horizon_loop_never_ends.
Qed.

Lemma generate_daily_data_nonpositive_horizon_witness :
  generate_daily_data 1000 (fresh 20 (-24)) five_prices [1; 2] = OutOfFuel.
Proof.
  apply (generate_daily_data_nonpositive_horizon (fresh 20 (-24)) five_prices [1; 2] 1000).
  vm_compute. discriminate.
Defined.




(** ** The selection of the cluster count *)

Section Sweep.
Context `{Collaborators}.

(** The sweep reads the state only through the generator. *)
Lemma inertia_sweep_generator samples : forall k_values inertia_values w1 w2,
  np_random w1 = np_random w2 ->
  fst (inertia_sweep k_values samples inertia_values w1)
  = fst (inertia_sweep k_values samples inertia_values w2) /\
  np_random (snd (inertia_sweep k_values samples inertia_values w1))
  = np_random (snd (inertia_sweep k_values samples inertia_values w2)).
Proof.
  induction k_values as [| k ks IH]; intros acc w1 w2 Hg; cbn [inertia_sweep].
  - now split.
  - unfold bind, fit. rewrite Hg.
    destruct (KMeans_fit k samples (np_random w2)) as [[kmeans | e |] g];
      cbn [fst snd]; [| now split | now split].
    now apply IH.
Qed.

(** The sweep keeps the model and the log, and records one inertia per
    candidate count. *)
Lemma inertia_sweep_frame samples : forall k_values inertia_values w,
  model (snd (inertia_sweep k_values samples inertia_values w)) = model w /\
  log (snd (inertia_sweep k_values samples inertia_values w)) = log w /\
  forall recorded,
    fst (inertia_sweep k_values samples inertia_values w) = Ok recorded ->
    length recorded = (length inertia_values + length k_values)%nat.
Proof.
  induction k_values as [| k ks IH]; intros acc w; cbn [inertia_sweep].
  - repeat split. intros recorded [= <-]. cbn. lia.
  - unfold bind, fit.
    destruct (KMeans_fit k samples (np_random w)) as [[kmeans | e |] g];
      cbn [fst snd]; [| repeat split; discriminate | repeat split; discriminate].
    destruct (IH (acc ++ [inertia_ kmeans]) (mkWorld (model w) g (log w)))
      as (Hm & Hl & Hlen).
    split; [exact Hm |]. split; [exact Hl |].
    intros recorded Hok. rewrite (Hlen recorded Hok), length_app. cbn. lia.
Qed.

(** X3.  [get_optimal_n_clusters] seeds the generator from the configured
    seed before its fits: called on the same table with the same bounds by
    two models that have the same seed, it ends with the same outcome whatever
    state the generator was in before, and (the seeding having gone through)
    leaves the generator in the same state. *)
Theorem get_optimal_n_clusters_seeded
    (daily_data : DataFrame Z) (kmin kmax : option Z) (w1 w2 : world) :
  _seed (model w1) = _seed (model w2) ->
  fst (get_optimal_n_clusters daily_data kmin kmax w1)
  = fst (get_optimal_n_clusters daily_data kmin kmax w2) /\
  (forall g, np_random_seed (_seed (model w1)) = Ok g ->
     np_random (snd (get_optimal_n_clusters daily_data kmin kmax w1))
     = np_random (snd (get_optimal_n_clusters daily_data kmin kmax w2))).
Proof.
  intros Hseed.
  assert (Hgen : forall (kmax' : Z) l1 l2,
    let rest := fun w =>
      (let! s := gets (fun w => _seed (model w)) in
       seed_generator s ;;
       let! inertia_values :=
         inertia_sweep (py_range (default 4 kmin) kmax') (df_transpose_rows daily_data) [] in
       let! n_clusters :=
         lift (KneeLocator_knee (py_range (default 4 kmin) kmax') inertia_values) in
       let! close :=
         lift match n_clusters with
              | None => Raise TypeError
              | Some n => Ok (kmax' <=? n + 2)
              end in
       (if close : bool then warn (CloseToKmax kmax') else ret tt) ;;
       ret (n_clusters, inertia_values)) w in
    fst (rest (mkWorld (model w1) (np_random w1) l1))
    = fst (rest (mkWorld (model w2) (np_random w2) l2)) /\
    (forall g, np_random_seed (_seed (model w1)) = Ok g ->
       np_random (snd (rest (mkWorld (model w1) (np_random w1) l1)))
       = np_random (snd (rest (mkWorld (model w2) (np_random w2) l2))))).
  { intros kmax' l1 l2. cbn zeta.
    unfold bind, gets, seed_generator, lift, warn, modify, ret.
    cbn [fst snd model]. rewrite <- Hseed.
    destruct (np_random_seed (_seed (model w1))) as [g | e |];
      cbn [fst snd model log np_random]; [| split; [easy | discriminate] ..].
    destruct (inertia_sweep_generator (df_transpose_rows daily_data)
                (py_range (default 4 kmin) kmax') []
                (mkWorld (model w1) g l1) (mkWorld (model w2) g l2) eq_refl)
      as [Hr Hg].
    destruct (inertia_sweep _ _ _ (mkWorld (model w1) g l1)) as [r1 s1],
             (inertia_sweep _ _ _ (mkWorld (model w2) g l2)) as [r2 s2].
    cbn [fst snd] in Hr, Hg. subst r2.
    destruct r1 as [inertia_values | e |]; cbn [fst snd];
      [| split; [reflexivity | intros ? _; exact Hg] ..].
    destruct (KneeLocator_knee _ _) as [[n |] | e |]; cbn [fst snd];
      try (split; [reflexivity | intros ? _; exact Hg]).
    destruct (kmax' <=? n + 2); cbn [fst snd np_random];
      (split; [reflexivity | intros ? _; exact Hg]). }
  unfold get_optimal_n_clusters. destruct kmax as [k |].
  - destruct w1 as [m1 g1 l1], w2 as [m2 g2 l2]. apply (Hgen k l1 l2).
  - destruct w1 as [m1 g1 l1], w2 as [m2 g2 l2].
    apply (Hgen 30 (l1 ++ [KmaxNotSet]) (l2 ++ [KmaxNotSet])).
Qed.
End Sweep.

Lemma get_optimal_n_clusters_seeded_witness :
  fst (get_optimal_n_clusters two_day_table (Some 1) (Some 3)
         (standin_world (fresh 20 24) 0))
  = fst (get_optimal_n_clusters two_day_table (Some 1) (Some 3)
           (standin_world (fresh 20 24) 5)).
Proof.
  apply (proj1 (get_optimal_n_clusters_seeded two_day_table (Some 1) (Some 3)
                  (standin_world (fresh 20 24) 0) (standin_world (fresh 20 24) 5)
                  eq_refl)).
Defined.

(** ** The full-year branches of the loader *)





Section FullYear.
Context `{Collaborators}.


End FullYear.



(** ** The ramping constraints *)


Lemma aggregate_modes_keys ps : map fst (aggregate_modes ps) = map fst ps.
Proof. unfold aggregate_modes. rewrite map_map. now apply map_ext. Qed.

Lemma aggregate_modes_len ps : py_len (aggregate_modes ps) = py_len ps.
Proof. unfold py_len, aggregate_modes. now rewrite length_map. Qed.












(** What the ramp-down rule returns when it returns. *)
Lemma ramp_down_con_rule_ok ps range_time_periods sd rd mo t rel :
  ramp_down_con_rule ps range_time_periods sd rd mo t = Ok rel ->
  exists now before power power' su su' om om',
    period_at ps range_time_periods t = Ok now /\
    period_at ps range_time_periods (t - 1) = Ok before /\
    opt_power now = Some power /\ opt_power before = Some power' /\
    startup now = Some su /\ startup before = Some su' /\
    op_mode now = Some om /\ op_mode before = Some om' /\
    rel = RelLe (Sub power' power)
            (Add (Sub (Mul (Num sd) (Sub (Add su' om') om)) (Mul (Num mo) su))
                 (Mul (Num rd) om)).
Proof.
  unfold ramp_down_con_rule, attr. intros Hok.
  destruct (period_at ps range_time_periods (t - 1)) as [before | |] eqn:Hbefore;
    try discriminate.
  cbn in Hok. destruct (opt_power before) as [power' |] eqn:Hp'; try discriminate.
  cbn in Hok.
  destruct (period_at ps range_time_periods t) as [now | |] eqn:Hnow;
    try discriminate.
  cbn in Hok. destruct (opt_power now) as [power |] eqn:Hp; try discriminate.
  cbn in Hok. destruct (startup before) as [su' |] eqn:Hsu'; try discriminate.
  cbn in Hok. destruct (op_mode before) as [om' |] eqn:Hom'; try discriminate.
  cbn in Hok. destruct (op_mode now) as [om |] eqn:Hom; try discriminate.
  cbn in Hok. destruct (startup now) as [su |] eqn:Hsu; try discriminate.
  cbn in Hok. inversion Hok; subst.
  exists now, before, power, power', su, su', om, om'. now repeat split.
Qed.

(** What was attached when [add_ramping_constraints] returned with a
    constraint in the ramp-up family: the periods got their expressions in
    this call, and both families were built from them. *)
Lemma add_ramping_constraints_ok sl sd ru rd mo self self' mp' ups t up :
  add_ramping_constraints sl sd ru rd mo self = (Ok tt, self') ->
  mp_model self' = Some mp' ->
  ramp_up_con mp' = Some ups ->
  In (t, up) ups ->
  exists downs,
    ramp_down_con mp' = Some downs /\
    indexed_constraint (RangeSet 2 (py_len (period mp') - 1))
      (ramp_up_con_rule (period mp') (map fst (period mp')) sl ru mo) = Ok ups /\
    indexed_constraint (RangeSet 2 (py_len (period mp') - 1))
      (ramp_down_con_rule (period mp') (map fst (period mp')) sd rd mo) = Ok downs.
Proof.
  intros Hrun Hmp Hcons Hin.
  unfold add_ramping_constraints, set_mp_model, get_mp_model, bind, gets, lift,
    modify, ret, attr, of_option in Hrun.
  cbn in Hrun.
  destruct (mp_model self) as [mp |] eqn:Hmp0; cbn in Hrun; [| discriminate].
  destruct (period_getitem (period mp) (KTuple [1; 1])) as [first | |];
    try discriminate.
  destruct (op_mode first) as [e |]; cbn in Hrun; rewrite Hmp0 in Hrun;
    cbn in Hrun.
  - destruct (indexed_constraint _ (ramp_up_con_rule _ _ _ _ _)) as [up' | |] eqn:Hup;
      try discriminate.
    cbn in Hrun.
    destruct (indexed_constraint _ (ramp_down_con_rule _ _ _ _ _)) as [down | |];
      try discriminate.
    cbn in Hrun. injection Hrun as <-. simpl in Hmp.
    injection Hmp as <-. unfold with_ramp_down_con, with_ramp_up_con in Hcons.
    cbn in Hcons. injection Hcons as <-.
    destruct (indexed_constraint_in _ _ _ _ _ Hup Hin) as [_ Hrule].
    apply ramp_up_con_rule_ok in Hrule as (now & ? & ? & ? & ? & ? & ? & ? & Hnow & _).
    unfold period_at in Hnow. rewrite py_index_nil in Hnow. discriminate.
  - destruct (indexed_constraint _ (ramp_up_con_rule _ _ _ _ _)) as [up' | |] eqn:Hup;
      try discriminate.
    cbn in Hrun.
    destruct (indexed_constraint _ (ramp_down_con_rule _ _ _ _ _)) as [down | |] eqn:Hdown;
      try discriminate.
    cbn in Hrun. injection Hrun as <-. simpl in Hmp.
    injection Hmp as <-. unfold with_ramp_down_con, with_ramp_up_con in Hcons.
    cbn in Hcons. injection Hcons as <-.
    cbn [period ramp_down_con with_ramp_down_con with_ramp_up_con with_period].
    rewrite aggregate_modes_keys, aggregate_modes_len.
    exists down. now repeat split.
Qed.

(** X9.  The constraints [add_ramping_constraints] built at an index [t]
    relate the periods the code looks up for [t] and [t-1], and they have the
    form the docstring gives in these regimes: while the unit operates in
    both hours and starts up in neither, they hold together exactly when
    [-ramp_down_limit <= power[t] - power[t-1] <= ramp_up_limit]; in an hour
    of startup after an idle hour the ramp-up constraint is
    [power[t] - power[t-1] <= startup_limit]; in an idle hour after an hour of
    operation the ramp-down constraint is
    [power[t-1] - power[t] <= shutdown_limit]. *)
Theorem ramping_constraints_by_regime
    (startup_limit shutdown_limit ramp_up_limit ramp_down_limit minimum_opt_limit : Q)
    (self self' : PriceTakerModel) (mp' : MultiPeriodModel)
    (ups downs : list (Z * relation)) (t : Z) (up down : relation) :
  add_ramping_constraints startup_limit shutdown_limit ramp_up_limit ramp_down_limit
    minimum_opt_limit self = (Ok tt, self') ->
  mp_model self' = Some mp' ->
  ramp_up_con mp' = Some ups ->
  ramp_down_con mp' = Some downs ->
  In (t, up) ups ->
  In (t, down) downs ->
  exists now before power power' su su' om om',
    period_at (period mp') (map fst (period mp')) t = Ok now /\
    period_at (period mp') (map fst (period mp')) (t - 1) = Ok before /\
    opt_power now = Some power /\ opt_power before = Some power' /\
    startup now = Some su /\ startup before = Some su' /\
    op_mode now = Some om /\ op_mode before = Some om' /\
    forall rho,
      ((eval rho om == 1)%Q -> (eval rho om' == 1)%Q ->
       (eval rho su == 0)%Q -> (eval rho su' == 0)%Q ->
       (holds rho up /\ holds rho down <->
        (- ramp_down_limit <= eval rho power - eval rho power' <= ramp_up_limit)%Q)) /\
      ((eval rho om == 0)%Q -> (eval rho om' == 0)%Q ->
       (eval rho su == 1)%Q -> (eval rho su' == 0)%Q ->
       (holds rho up <->
        (eval rho power - eval rho power' <= startup_limit)%Q)) /\
      ((eval rho om == 0)%Q -> (eval rho om' == 1)%Q ->
       (eval rho su == 0)%Q -> (eval rho su' == 0)%Q ->
       (holds rho down <->
        (eval rho power' - eval rho power <= shutdown_limit)%Q)).
Proof.
  intros Hrun Hmp Hups Hdowns Hup Hdown.
  destruct (add_ramping_constraints_ok _ _ _ _ _ _ _ _ _ _ _ Hrun Hmp Hups Hup)
    as (downs' & Hdowns' & Hbuilt & Hbuilt').
  rewrite Hdowns in Hdowns'. injection Hdowns' as <-.
  destruct (indexed_constraint_in _ _ _ _ _ Hbuilt Hup) as [_ Hrule].
  destruct (indexed_constraint_in _ _ _ _ _ Hbuilt' Hdown) as [_ Hrule'].
  apply ramp_up_con_rule_ok in Hrule
    as (now & before & power & power' & su & su' & om & om'
        & Hnow & Hbefore & Hp & Hp' & Hsu & Hsu' & Hom & Hom' & ->).
  apply ramp_down_con_rule_ok in Hrule'
    as (now2 & before2 & power2 & power2' & su2 & su2' & om2 & om2'
        & Hnow2 & Hbefore2 & Hp2 & Hp2' & Hsu2 & Hsu2' & Hom2 & Hom2' & ->).
  rewrite Hnow in Hnow2. injection Hnow2 as <-.
  rewrite Hbefore in Hbefore2. injection Hbefore2 as <-.
  rewrite Hp in Hp2. injection Hp2 as <-.
  rewrite Hp' in Hp2'. injection Hp2' as <-.
  rewrite Hsu in Hsu2. injection Hsu2 as <-.
  rewrite Hsu' in Hsu2'. injection Hsu2' as <-.
  rewrite Hom in Hom2. injection Hom2 as <-.
  rewrite Hom' in Hom2'. injection Hom2' as <-.
  exists now, before, power, power', su, su', om, om'.
  repeat (split; [assumption |]).
  intros rho. cbn [holds eval].
  split; [| split]; intros Eom Eom' Esu Esu'; rewrite Eom, Eom', Esu, Esu';
    split; intros; lra.
Qed.

Lemma ramping_constraints_by_regime_witness :
  exists up down,
    forall rho,
      (eval rho (Add (Num 0) (Leaf "op_mode3")) == 1)%Q ->
      (eval rho (Add (Num 0) (Leaf "op_mode2")) == 1)%Q ->
      (eval rho (Add (Num 0) (Leaf "startup3")) == 0)%Q ->
      (eval rho (Add (Num 0) (Leaf "startup2")) == 0)%Q ->
      (holds rho up /\ holds rho down <->
       (- (110 # 1) <= eval rho (Leaf "power3") - eval rho (Leaf "power2") <= 110 # 1)%Q).
Proof.
  pose (run := add_ramping_constraints (100 # 1) (100 # 1) (110 # 1) (110 # 1) 0 plant).
  pose (mp' := default (mkMultiPeriod [] None None None None) (mp_model (snd run))).
  pose (ups := default [] (ramp_up_con mp')).
  pose (downs := default [] (ramp_down_con mp')).
  pose (up := default (RelEq (Num 0) (Num 0)) (snd <$> head ups)).
  pose (down := default (RelEq (Num 0) (Num 0)) (snd <$> head downs)).
  exists up, down.
  destruct (ramping_constraints_by_regime (100 # 1) (100 # 1) (110 # 1) (110 # 1) 0
              plant (snd run) mp' ups downs 2 up down)
    as (now & before & power & power' & su & su' & om & om'
        & Hnow & Hbefore & Hp & Hp' & Hsu & Hsu' & Hom & Hom' & Hred).
  - vm_compute. reflexivity.
  - vm_compute. reflexivity.
  - vm_compute. reflexivity.
  - vm_compute. reflexivity.
  - vm_compute. left. reflexivity.
  - vm_compute. left. reflexivity.
  - vm_compute in Hnow, Hbefore. inversion Hnow; subst now.
    inversion Hbefore; subst before.
    vm_compute in Hp, Hp', Hsu, Hsu', Hom, Hom'.
    inversion Hp; inversion Hp'; inversion Hsu; inversion Hsu'; inversion Hom;
      inversion Hom'; subst.
    intros rho. exact (proj1 (Hred rho)).
Defined.

(** ** The startup and shutdown constraints *)


(** The value of Python's [sum] of expressions. *)
Lemma eval_py_sum rho (es : list expr) :
  (eval rho (py_sum es) == sumQ (map (eval rho) es))%Q.
Proof.
  unfold py_sum.
  enough (Hgen : forall acc,
             (eval rho (fold_left Add es acc)
              == eval rho acc + sumQ (map (eval rho) es))%Q).
  { rewrite Hgen. cbn [eval]. ring. }
  induction es as [| e es IH]; intros acc; cbn [fold_left map sumQ fold_right].
  - ring.
  - rewrite IH. cbn [eval]. fold (sumQ (map (eval rho) es)). ring.
Qed.



(** What the two rules return when they return. *)
Lemma startup_con1_rule_ok ps range_time_periods UT t rel :
  startup_con1_rule ps range_time_periods UT t = Ok rel ->
  exists terms now om,
    Forall2 (fun i e => exists blk,
               period_at ps range_time_periods i = Ok blk /\ startup blk = Some e)
      (py_range (t - UT + 1) t) terms /\
    period_at ps range_time_periods t = Ok now /\
    op_mode now = Some om /\
    rel = RelLe (py_sum terms) om.
Proof.
  unfold startup_con1_rule, attr. intros Hok.
  destruct (omap _ (py_range (t - UT + 1) t)) as [terms | |] eqn:Hterms;
    try discriminate.
  cbn in Hok.
  destruct (period_at ps range_time_periods t) as [now | |] eqn:Hnow; try discriminate.
  cbn in Hok. destruct (op_mode now) as [om |] eqn:Hom; try discriminate.
  cbn in Hok. injection Hok as <-.
  exists terms, now, om. split; [| easy].
  apply omap_ok in Hterms. eapply Forall2_impl; [exact Hterms |].
  intros i e' Hi. cbn beta in Hi.
  destruct (period_at ps range_time_periods i) as [blk | |]; try discriminate.
  cbn in Hi. destruct (startup blk) as [e0 |] eqn:Hsu; try discriminate.
  injection Hi as <-. now exists blk.
Qed.

Lemma stutdown_con1_rule_ok ps range_time_periods DT t rel :
  stutdown_con1_rule ps range_time_periods DT t = Ok rel ->
  exists terms back om,
    Forall2 (fun i e => exists blk,
               period_at ps range_time_periods i = Ok blk /\ startup blk = Some e)
      (py_range (t - DT) (t + 1)) terms /\
    period_at ps range_time_periods (t - DT) = Ok back /\
    op_mode back = Some om /\
    rel = RelLe (py_sum terms) (Sub (Num 1) om).
Proof.
  unfold stutdown_con1_rule, attr. intros Hok.
  destruct (omap _ (py_range (t - DT) (t + 1))) as [terms | |] eqn:Hterms;
    try discriminate.
  cbn in Hok.
  destruct (period_at ps range_time_periods (t - DT)) as [back | |] eqn:Hback;
    try discriminate.
  cbn in Hok. destruct (op_mode back) as [om |] eqn:Hom; try discriminate.
  cbn in Hok. injection Hok as <-.
  exists terms, back, om. split; [| easy].
  apply omap_ok in Hterms. eapply Forall2_impl; [exact Hterms |].
  intros i e' Hi. cbn beta in Hi.
  destruct (period_at ps range_time_periods i) as [blk | |]; try discriminate.
  cbn in Hi. destruct (startup blk) as [e0 |] eqn:Hsu; try discriminate.
  injection Hi as <-. now exists blk.
Qed.

(** X11.  The windows of the constraints [add_startup_shutdown] built.  At
    an index [t], [startup_con1] bounds by [op_mode] of hour [t] the sum of
    [startup] over the hours [t-UT+1 .. t-1], hour [t] itself left out;
    [stutdown_con1] bounds by [1 - op_mode] of hour [t-DT] the sum of
    [startup] over the hours [t-DT .. t], both ends included.  The hours are
    positions in the list of period keys. *)
Theorem startup_shutdown_windows
    (UT DT : Z) (self self' : PriceTakerModel) (mp' : MultiPeriodModel)
    (su sd : list (Z * relation)) :
  add_startup_shutdown UT DT self = (Ok tt, self') ->
  mp_model self' = Some mp' ->
  startup_con1 mp' = Some su ->
  stutdown_con1 mp' = Some sd ->
  (forall t rel, In (t, rel) su ->
     exists terms now om,
       Forall2 (fun i e => exists blk,
                  period_at (period mp') (map fst (period mp')) i = Ok blk /\
                  startup blk = Some e)
         (py_range (t - UT + 1) t) terms /\
       period_at (period mp') (map fst (period mp')) t = Ok now /\
       op_mode now = Some om /\
       forall rho, holds rho rel <-> (sumQ (map (eval rho) terms) <= eval rho om)%Q) /\
  (forall t rel, In (t, rel) sd ->
     exists terms back om,
       Forall2 (fun i e => exists blk,
                  period_at (period mp') (map fst (period mp')) i = Ok blk /\
                  startup blk = Some e)
         (py_range (t - DT) (t + 1)) terms /\
       period_at (period mp') (map fst (period mp')) (t - DT) = Ok back /\
       op_mode back = Some om /\
       forall rho,
         holds rho rel <-> (sumQ (map (eval rho) terms) <= 1 - eval rho om)%Q).
Proof.
  intros Hrun Hmp Hsu Hsd.
  unfold add_startup_shutdown, set_mp_model, get_mp_model, bind, gets, lift,
    modify, ret, attr, of_option in Hrun.
  cbn in Hrun.
  destruct (mp_model self) as [mp |] eqn:Hmp0; cbn in Hrun; [| discriminate].
  destruct (indexed_constraint _ (startup_con1_rule _ _ _)) as [su' | |] eqn:Hbuilt;
    try discriminate.
  cbn in Hrun.
  destruct (indexed_constraint _ (stutdown_con1_rule _ _ _)) as [sd' | |] eqn:Hbuilt';
    try discriminate.
  cbn in Hrun. injection Hrun as <-. simpl in Hmp. injection Hmp as <-.
  cbn in Hsu, Hsd. injection Hsu as <-. injection Hsd as <-.
  cbn [period with_stutdown_con1 with_startup_con1 with_period].
  rewrite aggregate_modes_keys.
  split; intros t rel Hin.
  - destruct (indexed_constraint_in _ _ _ _ _ Hbuilt Hin) as [_ Hrule].
    apply startup_con1_rule_ok in Hrule as (terms & now & om & Hterms & Hnow & Hom & ->).
    exists terms, now, om. repeat (split; [assumption |]).
    intros rho. cbn [holds eval]. now rewrite eval_py_sum.
  - destruct (indexed_constraint_in _ _ _ _ _ Hbuilt' Hin) as [_ Hrule].
    apply stutdown_con1_rule_ok in Hrule as (terms & back & om & Hterms & Hback & Hom & ->).
    exists terms, back, om. repeat (split; [assumption |]).
    intros rho. cbn [holds eval]. now rewrite eval_py_sum.
Qed.

Lemma startup_shutdown_windows_witness :
  exists rel,
    forall rho,
      holds rho rel <->
      (sumQ [eval rho (Add (Num 0) (Leaf "startup2"))]
       <= eval rho (Add (Num 0) (Leaf "op_mode3")))%Q.
Proof.
  pose (run := add_startup_shutdown 2 1 plant).
  pose (mp' := default (mkMultiPeriod [] None None None None) (mp_model (snd run))).
  pose (su := default [] (startup_con1 mp')).
  pose (sd := default [] (stutdown_con1 mp')).
  pose (rel := default (RelEq (Num 0) (Num 0)) (snd <$> head su)).
  exists rel.
  assert (Hrun : add_startup_shutdown 2 1 plant = (Ok tt, snd run))
    by (vm_compute; reflexivity).
  assert (Hmp : mp_model (snd run) = Some mp') by (vm_compute; reflexivity).
  assert (Hsu : startup_con1 mp' = Some su) by (vm_compute; reflexivity).
  assert (Hsd : stutdown_con1 mp' = Some sd) by (vm_compute; reflexivity).
  destruct (proj1 (startup_shutdown_windows 2 1 plant (snd run) mp' su sd
                     Hrun Hmp Hsu Hsd) 2 rel)
    as (terms & now & om & Hterms & Hnow & Hom & Hred).
  - vm_compute. left. reflexivity.
  - vm_compute in Hnow. inversion Hnow; subst now.
    vm_compute in Hom. inversion Hom; subst om.
    change (py_range (2 - 2 + 1) 2) with [1] in Hterms.
    inversion Hterms as [| i e l terms' (blk & Hblk & He) Hrest]; subst.
    inversion Hrest; subst.
    vm_compute in Hblk. inversion Hblk; subst blk.
    vm_compute in He. inversion He; subst e.
    exact Hred.
Defined.

(** ** The hourly cash flows *)

Lemma sumQ_app l1 l2 : (sumQ (l1 ++ l2) == sumQ l1 + sumQ l2)%Q.
Proof.
  unfold sumQ. induction l1 as [| x l1 IH]; cbn [app fold_right].
  - now rewrite Qplus_0_l.
  - rewrite IH. now rewrite Qplus_assoc.
Qed.

(** The value of a quantity accumulated over the operation blocks. *)
Lemma eval_sum_operation rho f blks :
  (eval rho (sum_operation f blks)
   == sumQ (map (fun b => eval rho (f b)) (operation_blocks blks)))%Q.
Proof.
  unfold sum_operation.
  enough (Hgen : forall acc,
             (eval rho (fold_left
                          (fun acc blk =>
                             match blk with
                             | OperationBlock b => Add acc (f b)
                             | _ => acc
                             end) blks acc)
              == eval rho acc
                 + sumQ (map (fun b => eval rho (f b)) (operation_blocks blks)))%Q).
  { rewrite Hgen. cbn [eval]. ring. }
  induction blks as [| blk blks IH]; intros acc; cbn [fold_left].
  - cbn. ring.
  - rewrite IH. unfold operation_blocks. cbn [flat_map].
    fold (operation_blocks blks). rewrite map_app, sumQ_app.
    destruct blk as [b | b |]; cbn [eval map sumQ fold_right]; ring.
Qed.

Lemma sumQ_margin rho (bs : list OperationModelData) :
  (sumQ (map (fun b => eval rho (blk_elec_revenue b)) bs)
   - sumQ (map (fun b => eval rho (blk_non_fuel_vom b)) bs)
   - sumQ (map (fun b => eval rho (blk_fuel_cost b)) bs)
   - sumQ (map (fun b => eval rho (blk_carbon_price b)) bs)
   == sumQ (map (block_margin rho) bs))%Q.
Proof.
  induction bs as [| b bs IH]; cbn [map sumQ fold_right].
  - ring.
  - fold (sumQ (map (block_margin rho) bs)). rewrite <- IH. unfold block_margin, sumQ.
    ring.
Qed.

(** X12.  [build_hourly_cashflows] on a model with its periods returns and
    keeps the keys of the periods in order; each period keeps its blocks, its
    power variable and its mode expressions, and its [net_cash_inflow] has,
    under every valuation, the value of the sum over the operation blocks of
    the period of revenue less variable cost, fuel cost and carbon price:
    blocks of other kinds contribute nothing.  A second call changes
    nothing. *)
Theorem build_hourly_cashflows_net (self : PriceTakerModel) (mp : MultiPeriodModel) :
  mp_model self = Some mp ->
  exists mp',
    build_hourly_cashflows self = (Ok tt, with_mp_model (Some mp') self) /\
    map fst (period mp') = map fst (period mp) /\
    Forall2 (fun kb kb' =>
               period_blocks (snd kb') = period_blocks (snd kb) /\
               opt_power (snd kb') = opt_power (snd kb) /\
               op_mode (snd kb') = op_mode (snd kb) /\
               startup (snd kb') = startup (snd kb) /\
               exists inflow,
                 net_cash_inflow (snd kb') = Some inflow /\
                 forall rho,
                   (eval rho inflow
                    == sumQ (map (block_margin rho)
                               (operation_blocks (period_blocks (snd kb)))))%Q)
      (period mp) (period mp') /\
    build_hourly_cashflows (with_mp_model (Some mp') self)
    = (Ok tt, with_mp_model (Some mp') self).
Proof.
  intros Hmp.
  exists (with_period
            (map (fun kb => (fst kb, attach_hourly_cashflows (snd kb))) (period mp)) mp).
  unfold build_hourly_cashflows, set_mp_model, get_mp_model, bind, gets, lift,
    modify, ret, of_option.
  rewrite Hmp. cbn [mp_model with_mp_model period with_period].
  split; [reflexivity |]. split; [| split].
  - rewrite map_map. now apply map_ext.
  - apply Forall2_same_length_lookup_2; [now rewrite length_map |].
    intros i [k blk] [k' blk'] Hkb Hkb'. cbn [snd].
    change (map ?f ?l) with (f <$> l) in Hkb'.
    rewrite list_lookup_fmap, Hkb in Hkb'. cbn in Hkb'. injection Hkb' as <- <-.
    cbn [attach_hourly_cashflows period_blocks opt_power op_mode startup
         net_cash_inflow].
    repeat (split; [reflexivity |]).
    eexists. split; [reflexivity |].
    intros rho. cbn [eval]. rewrite !eval_sum_operation. apply sumQ_margin.
  - rewrite map_map. cbn [fst snd].
    do 4 f_equal; try (apply map_ext; intros [k blk]; reflexivity).
Qed.

Lemma build_hourly_cashflows_net_witness :
  exists mp', build_hourly_cashflows plant = (Ok tt, with_mp_model (Some mp') plant).
Proof.
  destruct (build_hourly_cashflows_net plant
              (default (mkMultiPeriod [] None None None None) (mp_model plant)))
    as (mp' & Hrun & _).
  - vm_compute. reflexivity.
  - now exists mp'.
Defined.

(** ** The cash flows of the project *)






Lemma bind_gets {S A B : Type} (f : S -> A) (k : A -> M S B) s :
  bind (gets f) k s = k (f s) s.
Proof. reflexivity. Qed.

Lemma bind_ret {S A B : Type} (a : A) (k : A -> M S B) s :
  bind (ret a) k s = k a s.
Proof. reflexivity. Qed.


Lemma bind_declare {A : Type} name c (k : unit -> M PriceTakerModel A) s :
  bind (declare name c) k s
  = k tt (with_components (set_component name c (components s)) s).
Proof. reflexivity. Qed.

Lemma bind_get_mp_model {A : Type} (k : MultiPeriodModel -> M PriceTakerModel A) s mp :
  mp_model s = Some mp -> bind get_mp_model k s = k mp s.
Proof. intros Hmp. unfold get_mp_model, bind, gets, lift. now rewrite Hmp. Qed.









Lemma omap_raises {A B : Type} (f : A -> outcome B) e (l : list A) :
  (forall x, In x l -> f x = Raise e \/ exists y, f x = Ok y) ->
  (exists x, In x l /\ f x = Raise e) ->
  omap f l = Raise e.
Proof.
  induction l as [| x l IH]; intros Hall (x0 & Hin & Hx0); [easy |].
  cbn [omap]. destruct (Hall x) as [-> | [y Hy]]; [now left | reflexivity |].
  rewrite Hy. cbn [obind]. rewrite IH; [reflexivity | |].
  - intros x' Hx'. apply Hall. now right.
  - destruct Hin as [-> | Hin]; [congruence |]. now exists x0.
Qed.

Lemma period_getitem_NoDup ps k blk :
  NoDup (map fst ps) -> In (k, blk) ps -> period_getitem ps k = Ok blk.
Proof.
  unfold period_getitem. induction ps as [| [k0 blk0] ps IH]; [easy |].
  cbn [map fst]. intros Hnd Hin. apply NoDup_cons in Hnd as [Hout Hnd].
  cbn [find fst]. destruct (bool_decide_reflect (k0 = k)) as [-> | Hne].
  - destruct Hin as [[= ->] | Hin]; [reflexivity |].
    exfalso. apply Hout, list_elem_of_In, in_map_iff. now exists (k, blk).
  - destruct Hin as [[= -> ->] | Hin]; [easy |]. now apply IH.
Qed.

(** X16.  [build_cashflows] needs [build_hourly_cashflows] first: on a
    model one of whose periods has no [net_cash_inflow], it raises
    [AttributeError] (for a lifetime other than 0, with which the division
    before raises), and a model that had no objective is left without one. *)
Theorem build_cashflows_before_hourly
    (lifetime : Z) (discount_rate corp_tax other_costs other_revenue : Q)
    (objective : string) (self : PriceTakerModel) (mp : MultiPeriodModel)
    (k : pykey) (blk : PeriodBlock) :
  mp_model self = Some mp ->
  lifetime <> 0 ->
  NoDup (map fst (period mp)) ->
  In (k, blk) (period mp) ->
  net_cash_inflow blk = None ->
  objectives (components self) = [] ->
  let run := build_cashflows lifetime discount_rate corp_tax other_costs other_revenue
               objective self in
  fst run = Raise AttributeError /\ objectives (components (snd run)) = [].
Proof.
  intros Hmp Hlife Hnd Hin Hnone Hobj run. subst run.
  assert (Hinflows :
            omap (fun p => let? blk := period_getitem (period mp) p in
                           attr (net_cash_inflow blk))
              (map fst (period mp)) = Raise AttributeError).
  { apply omap_raises.
    - intros k' ([k0 blk0] & <- & Hin0)%in_map_iff. cbn [fst].
      rewrite (period_getitem_NoDup _ _ _ Hnd Hin0). cbn [obind].
      destruct (net_cash_inflow blk0) as [e |]; [right; now exists e | now left].
    - exists k. split; [apply in_map_iff; now exists (k, blk) |].
      rewrite (period_getitem_NoDup _ _ _ Hnd Hin). cbn [obind]. now rewrite Hnone. }
  unfold build_cashflows.
  rewrite bind_gets, !bind_declare.
  destruct (Z.eqb_spec lifetime 0) as [| _]; [easy |].
  rewrite bind_ret, !bind_declare.
  rewrite (bind_get_mp_model _ _ mp) by exact Hmp.
  rewrite Hinflows. unfold bind at 1. unfold lift at 1.
  cbn [fst snd components with_components].
  split; [reflexivity |].
  repeat (apply objectives_set_other; [reflexivity |]). exact Hobj.
Qed.

Lemma build_cashflows_before_hourly_witness :
  fst (build_cashflows 30 (8 # 100) (2 # 10) 0 0 "NPV" plant) = Raise AttributeError.
Proof.
  apply (build_cashflows_before_hourly 30 (8 # 100) (2 # 10) 0 0 "NPV" plant
           (default (mkMultiPeriod [] None None None None) (mp_model plant))
           (KTuple [1; 1]) (plant_period "1")).
  - vm_compute. reflexivity.
  - lia.
  - vm_compute. repeat constructor; rewrite ?list_elem_of_In; cbn;
      intuition discriminate.
  - vm_compute. left. reflexivity.
  - reflexivity.
  - reflexivity.
Defined.

(** ** The values the representative-day load stores *)



Section Stored.
Context `{Collaborators}.




End Stored.


(** ** What the selection of the cluster count returns *)

Section Selected.
Context `{Collaborators}.

(** X18.  When [get_optimal_n_clusters] returns, it returns the knee, an
    integer, with one inertia for each candidate count of
    [range(kmin, kmax)], [kmax] itself not being tried (4 and 30 where an
    argument is left out); the model is untouched, and the warnings logged
    are, in order, the one of the default [kmax] when [kmax] was left out and
    the one of a knee close to [kmax] exactly when [n_clusters + 2 >= kmax]. *)
Theorem get_optimal_n_clusters_returns
    (daily_data : DataFrame Z) (kmin kmax : option Z) (w w' : world)
    (result : option Z * list Q) :
  get_optimal_n_clusters daily_data kmin kmax w = (Ok result, w') ->
  exists n inertia_values,
    result = (Some n, inertia_values) /\
    length inertia_values = Z.to_nat (default 30 kmax - default 4 kmin) /\
    KneeLocator_knee (py_range (default 4 kmin) (default 30 kmax)) inertia_values
    = Ok (Some n) /\
    model w' = model w /\
    log w'
    = log w ++ match kmax with Some _ => [] | None => [KmaxNotSet] end
      ++ (if default 30 kmax <=? n + 2 then [CloseToKmax (default 30 kmax)] else []).
Proof.
  intros Hrun.
  assert (Hgen : forall (kmax' : Z) (w0 : world),
    (let! s := gets (fun w => _seed (model w)) in
     seed_generator s ;;
     let! inertia_values :=
       inertia_sweep (py_range (default 4 kmin) kmax') (df_transpose_rows daily_data) [] in
     let! n_clusters :=
       lift (KneeLocator_knee (py_range (default 4 kmin) kmax') inertia_values) in
     let! close :=
       lift match n_clusters with
            | None => Raise TypeError
            | Some n => Ok (kmax' <=? n + 2)
            end in
     (if close : bool then warn (CloseToKmax kmax') else ret tt) ;;
     ret (n_clusters, inertia_values)) w0 = (Ok result, w') ->
    exists n inertia_values,
      result = (Some n, inertia_values) /\
      length inertia_values = Z.to_nat (kmax' - default 4 kmin) /\
      KneeLocator_knee (py_range (default 4 kmin) kmax') inertia_values = Ok (Some n) /\
      model w' = model w0 /\
      log w' = log w0 ++ (if kmax' <=? n + 2 then [CloseToKmax kmax'] else [])).
  { intros kmax' w0 Hbody.
    unfold bind, gets, seed_generator, lift, warn, modify, ret in Hbody.
    cbn [fst snd model] in Hbody.
    destruct (np_random_seed (_seed (model w0))) as [g0 | |]; try discriminate.
    destruct (inertia_sweep_frame (df_transpose_rows daily_data)
                (py_range (default 4 kmin) kmax') []
                (mkWorld (model w0) g0 (log w0))) as (Hm & Hl & Hlen).
    destruct (inertia_sweep _ _ _ _) as [[inertia_values | |] w1]; try discriminate.
    cbn [fst snd model log] in Hm, Hl, Hlen.
    specialize (Hlen inertia_values eq_refl). cbn [length Nat.add] in Hlen.
    rewrite py_range_length in Hlen.
    destruct (KneeLocator_knee _ _) as [[n |] | |] eqn:Hknee; try discriminate.
    exists n, inertia_values.
    destruct (kmax' <=? n + 2); cbn [fst snd] in Hbody; injection Hbody as <- <-;
      cbn [model log]; rewrite ?app_nil_r; now repeat split; try congruence. }
  unfold get_optimal_n_clusters in Hrun. destruct kmax as [k |]; cbn [default].
  - unfold bind at 1, ret at 1 in Hrun.
    destruct (Hgen k w Hrun) as (n & inertia_values & ? & ? & ? & ? & ?).
    exists n, inertia_values. now repeat split.
  - unfold bind at 1, bind at 1, warn at 1, modify at 1, ret at 1 in Hrun.
    destruct (Hgen 30 _ Hrun) as (n & inertia_values & ? & ? & ? & Hm & Hl).
    exists n, inertia_values. cbn [model log] in Hm, Hl. rewrite <- app_assoc in Hl.
    now repeat split.
Qed.
End Selected.

Lemma get_optimal_n_clusters_returns_witness :
  exists n inertia_values,
    fst (get_optimal_n_clusters
           (mkDataFrame 24 [(1, repeat (Some (10 # 1)) 24); (2, repeat (Some (20 # 1)) 24);
                            (3, repeat (Some (30 # 1)) 24)])
           (Some 1) (Some 4) (standin_world (fresh 20 24) 0))
    = Ok (Some n, inertia_values) /\
    length inertia_values = 3%nat.
Proof.
  pose (run := get_optimal_n_clusters
                 (mkDataFrame 24 [(1, repeat (Some (10 # 1)) 24);
                                  (2, repeat (Some (20 # 1)) 24);
                                  (3, repeat (Some (30 # 1)) 24)])
                 (Some 1) (Some 4) (standin_world (fresh 20 24) 0)).
  destruct (get_optimal_n_clusters_returns
              (mkDataFrame 24 [(1, repeat (Some (10 # 1)) 24);
                               (2, repeat (Some (20 # 1)) 24);
                               (3, repeat (Some (30 # 1)) 24)])
              (Some 1) (Some 4) (standin_world (fresh 20 24) 0) (snd run)
              (Some 2, [0; 0; 0]%Q))
    as (n & inertia_values & Hres & Hlen & _).
  - vm_compute. reflexivity.
  - exists n, inertia_values. split; [| exact Hlen].
    rewrite <- Hres. vm_compute. reflexivity.
Defined.

(** ** The full-year load of several years *)


Section FullYears.
Context `{Collaborators}.


End FullYears.

